(** * pipewire-screencast: the portal handshake and the recorder's shutdown

    A shallow embedding of [pipewire-screencast.py]: the two classes
    [DesktopPortalManager] and [PipewireRecorder] become state-passing
    functions over one [World], which holds the fields of the two objects
    together with the part of the outside the program acts on (the signal
    receivers registered on the session bus, the calls made to the portal,
    to GStreamer, to the GLib main loop and to [threading.Timer]).  Calls to
    the outside are recorded, in order, in [trace]. *)

From Stdlib Require Import QArith Ascii.
From stdpp Require Import base numbers strings gmap list pretty.

Local Open Scope string_scope.
Local Open Scope Z_scope.
Local Open Scope list_scope.

(** ** Values exchanged with the bus *)

(** A stream as the portal's [Start] reply lists it: node id and
    properties. *)
Definition StreamDescriptor : Type := Z * gmap string string.

(** Python values the program passes around without looking at their type
    first: the entries of the [results] and [options] dictionaries and
    [None]. *)
Inductive Value :=
| VNone
| VStr (s : string)
| VBool (b : bool)
| VUInt32 (n : Z)
| VStreams (l : list StreamDescriptor).

(** [str(v)], as the f-string of [_select_sources] uses it on the session
    handle, which the portal sends as a string. *)
Definition str (v : Value) : string :=
  match v with
  | VNone => "None"
  | VStr s => s
  | VBool b => if b then "1" else "0"
  | VUInt32 n => pretty n
  | VStreams _ => "dbus.Array(...)"
  end.

Inductive Exn :=
| TypeError
| KeyError (key : string)
| AttributeError
| ValueError.

(** The bound methods registered as receivers of a [Response] signal. *)
Inductive Handler := H_process_streams | H_start_portal | H_select_sources.

(** The callables handed to [get_streams]; the program has one, the closure
    [get_streams_callback] built in [PipewireRecorder.record]. *)
Inductive Callback := Closure_get_streams_callback.

Inductive PortalMethod := CreateSession | SelectSources | Start.

(** ** GStreamer objects *)

Inductive GstState := GST_NULL | GST_PLAYING.

Record Element := mkElement {
  factory : string;
  name : option string;           (* set by [name=...] in the description *)
  properties : list (string * string) }.

Record Pipeline := mkPipeline {
  pipeline_id : nat;
  elements : list Element;
  state : GstState }.

Inductive ErrorDomain :=
| CoreError | LibraryError | ResourceError | StreamError.

Record GError := mkGError {
  domain : ErrorDomain;
  code : Z;
  message : string }.

Inductive Message :=
| MsgEOS
| MsgError (src_name : string) (err : GError)
| MsgOther.

(** A [threading.Timer] whose function is [self.terminate]. [finished] is
    the timer's event of the same name: set by [cancel] and after the
    function ran. *)
Record Timer := mkTimer {
  timer_id : nat;
  interval : Q;
  started : bool;
  finished : bool }.

(** ** Calls to the outside *)

Inductive Event :=
| Print (line : string)
| AddSignalReceiver (h : Handler) (signal_name dbus_interface bus_name path : string)
| PortalCall (m : PortalMethod) (args : list Value) (options : gmap string Value)
| OpenPipeWireRemote (session : Value)
| ParseLaunch (id : nat) (els : list Element)
| BusAddSignalWatch (id : nat)
| BusConnect (id : nat)
| SetState (id : nat) (s : GstState)
| PipelineSendEOS (id : nat)
| ElementSendEOS (id : nat) (e : Element)
| LoopQuit
| TimerCreate (id : nat) (delay : Q)
| TimerStart (id : nat)
| TimerCancel (id : nat).

(** ** The two objects and the world *)

Record DesktopPortalManager := mkDPM {
  _request_token_counter : Z;
  _session_token_counter : Z;
  _sender_name : string;
  _session_path : string;
  _session_token : string;
  _session : Value;
  _callback : option Callback }.

Record PipewireRecorder := mkPWR {
  _dpm : DesktopPortalManager;
  _pipeline : option Pipeline;
  crf : string;
  vbv_maxrate : string;
  location : string;
  _delayed_terminate : option Timer }.

Record World := mkWorld {
  pwr : PipewireRecorder;
  (* the dictionary that is the default of [_dbus_screencast]'s [options]:
     one object, shared by every call that leaves [options] out *)
  default_options : gmap string Value;
  (* receivers added to the session bus, oldest first; none is removed *)
  receivers : list (string * Handler);
  (* the descriptor the portal returns to the n-th OpenPipeWireRemote *)
  remote_fd : nat -> Z;
  (* identities handed to the objects created so far *)
  objects : nat;
  trace : list Event }.

Definition with_pwr (f : PipewireRecorder -> PipewireRecorder) (w : World) : World :=
  mkWorld (f (pwr w)) (default_options w) (receivers w) (remote_fd w)
          (objects w) (trace w).

Definition with_dpm (f : DesktopPortalManager -> DesktopPortalManager)
    (r : PipewireRecorder) : PipewireRecorder :=
  mkPWR (f (_dpm r)) (_pipeline r) (crf r) (vbv_maxrate r) (location r)
        (_delayed_terminate r).

Definition set_pipeline (p : option Pipeline) (r : PipewireRecorder) : PipewireRecorder :=
  mkPWR (_dpm r) p (crf r) (vbv_maxrate r) (location r) (_delayed_terminate r).

Definition set_delayed_terminate (t : option Timer) (r : PipewireRecorder)
    : PipewireRecorder :=
  mkPWR (_dpm r) (_pipeline r) (crf r) (vbv_maxrate r) (location r) t.

Definition set_request_token_counter (n : Z) (d : DesktopPortalManager)
    : DesktopPortalManager :=
  mkDPM n (_session_token_counter d) (_sender_name d) (_session_path d)
        (_session_token d) (_session d) (_callback d).

Definition set_session (v : Value) (d : DesktopPortalManager) : DesktopPortalManager :=
  mkDPM (_request_token_counter d) (_session_token_counter d) (_sender_name d)
        (_session_path d) (_session_token d) v (_callback d).

Definition set_callback (c : option Callback) (d : DesktopPortalManager)
    : DesktopPortalManager :=
  mkDPM (_request_token_counter d) (_session_token_counter d) (_sender_name d)
        (_session_path d) (_session_token d) (_session d) c.

Definition set_default_options (o : gmap string Value) (w : World) : World :=
  mkWorld (pwr w) o (receivers w) (remote_fd w) (objects w) (trace w).

Definition add_receiver (path : string) (h : Handler) (w : World) : World :=
  mkWorld (pwr w) (default_options w) (receivers w ++ [(path, h)]) (remote_fd w)
          (objects w) (trace w).

Definition set_objects (n : nat) (w : World) : World :=
  mkWorld (pwr w) (default_options w) (receivers w) (remote_fd w) n (trace w).

Definition log (e : Event) (w : World) : World :=
  mkWorld (pwr w) (default_options w) (receivers w) (remote_fd w) (objects w)
          (trace w ++ [e]).

Definition dpm (w : World) : DesktopPortalManager := _dpm (pwr w).

(** ** Computations: state, and exceptions that keep the state reached *)

Inductive Outcome (A : Type) :=
| Return (a : A)
| Raise (e : Exn).
Arguments Return {A} a.
Arguments Raise {A} e.

Definition M (A : Type) : Type := World -> World * Outcome A.

Definition ret {A} (a : A) : M A := fun w => (w, Return a).

Definition raise {A} (e : Exn) : M A := fun w => (w, Raise e).

Definition bind {A B} (m : M A) (k : A -> M B) : M B :=
  fun w => match m w with
           | (w', Return a) => k a w'
           | (w', Raise e) => (w', Raise e)
           end.

#[global] Instance M_ret : MRet M := @ret.
#[global] Instance M_bind : MBind M := fun A B k m => bind m k.

Definition get : M World := fun w => (w, Return w).

Definition modify (f : World -> World) : M unit := fun w => (f w, Return tt).

Definition emit (e : Event) : M unit := modify (log e).

Definition print (line : string) : M unit := emit (Print line).

(** A new object identity. *)
Definition fresh : M nat :=
  w ← get; modify (set_objects (S (objects w)));; mret (objects w).

(** The world a computation leaves, whether it returned or raised. *)
Definition exec {A} (m : M A) (w : World) : World := fst (m w).

Definition result {A} (m : M A) (w : World) : Outcome A := snd (m w).

(** The events a computation adds to the trace of [w]. *)
Definition emitted {A} (m : M A) (w : World) : list Event :=
  drop (length (trace w)) (trace (exec m w)).

(** [d[key]] on a dictionary. *)
Definition subscript (d : gmap string Value) (key : string) : M Value :=
  match d !! key with
  | Some v => mret v
  | None => raise (KeyError key)
  end.

(** ** class DesktopPortalManager *)

Definition DESKTOP_IFACE : string := "org.freedesktop.portal.Desktop".
Definition DESKTOP_PATH : string := "/org/freedesktop/portal/desktop".
Definition REQUEST_IFACE : string := "org.freedesktop.portal.Request".
Definition SCREENCAST_IFACE : string := "org.freedesktop.portal.ScreenCast".

(** [re.sub(r"\.", r"_", s)] *)
Fixpoint sub_dots (s : string) : string :=
  match s with
  | EmptyString => EmptyString
  | String c s' =>
      String (if Ascii.eqb c "."%char then "_"%char else c) (sub_dots s')
  end.

(** [s[1:]] *)
Definition tail_str (s : string) : string :=
  match s with
  | EmptyString => EmptyString
  | String _ s' => s'
  end.

Definition token_of (counter : Z) : string := "u" +:+ pretty counter.

Definition request_path_of (sender_name token : string) : string :=
  DESKTOP_PATH +:+ "/request/" +:+ sender_name +:+ "/" +:+ token.

Definition session_path_of (sender_name token : string) : string :=
  DESKTOP_PATH +:+ "/session/" +:+ sender_name +:+ "/" +:+ token.

Definition _new_request_path : M (string * string) :=
  w ← get;
  let counter := _request_token_counter (dpm w) + 1 in
  modify (with_pwr (with_dpm (set_request_token_counter counter)));;
  let token := token_of counter in
  let path := request_path_of (_sender_name (dpm w)) token in
  mret (path, token).

(** [_new_session_path] is called from [__init__] only, on the object under
    construction: it takes the counter and the sender name and returns the
    new counter with the pair. *)
Definition _new_session_path (session_token_counter : Z) (sender_name : string)
    : Z * (string * string) :=
  let counter := session_token_counter + 1 in
  let token := token_of counter in
  let path := session_path_of sender_name token in
  (counter, (path, token)).

(** [__init__]; [unique_name] is what [self._bus.get_unique_name()]
    returns. *)
Definition DesktopPortalManager_init (unique_name : string) : DesktopPortalManager :=
  let sender_name := sub_dots (tail_str unique_name) in
  let '(session_token_counter, (session_path, session_token)) :=
    _new_session_path 0 sender_name in
  {| _request_token_counter := 0;
     _session_token_counter := session_token_counter;
     _sender_name := sender_name;
     _session_path := session_path;
     _session_token := session_token;
     _session := VNone;
     _callback := None |}.

(** [options = None] is a call that leaves [options] out: the default
    dictionary is then the one shared object, and the assignment of
    [handle_token] writes into it. *)
Definition _dbus_screencast (method : PortalMethod) (callback : Handler)
    (args : list Value) (options : option (gmap string Value)) : M unit :=
  '(request_path, request_token) ← _new_request_path;
  emit (AddSignalReceiver callback "Response" REQUEST_IFACE DESKTOP_IFACE
          request_path);;
  modify (add_receiver request_path callback);;
  options ← match options with
            | Some o => mret (<["handle_token" := VStr request_token]> o)
            | None =>
                w ← get;
                let o := <["handle_token" := VStr request_token]> (default_options w) in
                modify (set_default_options o);;
                mret o
            end;
  emit (PortalCall method args options).

Section Negotiator.

(** What calling a stored callable does. *)
Variable invoke : Callback -> Value -> M unit.

(** [self._callback(arg)] *)
Definition call_callback (arg : Value) : M unit :=
  w ← get;
  match _callback (dpm w) with
  | Some cb => invoke cb arg
  | None => raise TypeError
  end.

Definition _process_streams (response : Z) (results : gmap string Value) : M unit :=
  if bool_decide (response ≠ 0) then
    print "Did not receive streams from portal.";;
    call_callback VNone
  else
    print "Sources selected";;
    streams ← subscript results "streams";
    call_callback streams.

Definition _start_portal (response : Z) (results : gmap string Value) : M unit :=
  if bool_decide (response ≠ 0) then
    print ("Failed to select sources: " +:+ pretty response);;
    call_callback VNone
  else
    w ← get;
    _dbus_screencast Start H_process_streams
      [_session (dpm w); VStr ""] None.

Definition _select_sources (response : Z) (results : gmap string Value) : M unit :=
  if bool_decide (response ≠ 0) then
    print ("Failed to create session: " +:+ pretty response);;
    call_callback VNone
  else
    session_handle ← subscript results "session_handle";
    modify (with_pwr (with_dpm (set_session session_handle)));;
    print ("session " +:+ str session_handle +:+ " created");;
    _dbus_screencast SelectSources H_start_portal [session_handle]
      (Some {[ "multiple" := VBool false;
               "types" := VUInt32 (Z.lor 1 2) ]}).

Definition run_handler (h : Handler) : Z -> gmap string Value -> M unit :=
  match h with
  | H_process_streams => _process_streams
  | H_start_portal => _start_portal
  | H_select_sources => _select_sources
  end.

End Negotiator.

Definition get_streams (callback : Callback) : M unit :=
  modify (with_pwr (with_dpm (set_callback (Some callback))));;
  w ← get;
  _dbus_screencast CreateSession H_select_sources []
    (Some {[ "session_handle_token" := VStr (_session_token (dpm w)) ]}).

Definition is_exchange (e : Event) : bool :=
  match e with OpenPipeWireRemote _ => true | _ => false end.

(** The OpenPipeWireRemote calls made so far. *)
Definition exchanges (t : list Event) : nat :=
  length (List.filter is_exchange t).

Definition get_pipewire_fd : M Z :=
  w ← get;
  emit (OpenPipeWireRemote (_session (dpm w)));;
  mret (remote_fd w (exchanges (trace w))).

(** ** class PipewireRecorder *)

(** [crf], [vbv_maxrate] and [location] are kept the way the f-string of
    [_record] prints them. *)
Definition PipewireRecorder_init (crf vbv_maxrate location unique_name : string)
    : PipewireRecorder :=
  {| _dpm := DesktopPortalManager_init unique_name;
     _pipeline := None;
     crf := crf;
     vbv_maxrate := vbv_maxrate;
     location := location;
     _delayed_terminate := None |}.

#[global] Instance ErrorDomain_eq_dec : EqDecision ErrorDomain.
Proof. solve_decision. Defined.

(** [Gst.ResourceError(c)]: the member of the enumeration whose number is
    [c]. *)
Definition ResourceError_member (c : Z) : Z := c.

(** [err.matches(domain, code)] *)
Definition matches (err : GError) (d : ErrorDomain) (c : Z) : bool :=
  bool_decide (domain err = d) && bool_decide (code err = c).

(** [pipeline.get_by_name(n)]: the element given that name in the
    description. *)
Definition get_by_name (p : Pipeline) (n : string) : option Element :=
  List.find (λ e, bool_decide (name e = Some n)) (elements p).

(** [pipeline.set_state(s)] on the object [self._pipeline] refers to. *)
Definition pipeline_set_state (p : Pipeline) (s : GstState) : M unit :=
  emit (SetState (pipeline_id p) s);;
  modify (with_pwr (set_pipeline (Some (mkPipeline (pipeline_id p) (elements p) s)))).

(** The default of [delayed_terminate]'s [delay], 1.0. *)
Definition default_delay : Q := 1%Q.

Definition terminate : M unit :=
  w ← get;
  match _pipeline (pwr w) with
  | Some p => pipeline_set_state p GST_NULL
  | None => mret tt
  end;;
  emit LoopQuit;;
  w ← get;
  match _delayed_terminate (pwr w) with
  | Some t =>
      emit (TimerCancel (timer_id t));;
      modify (with_pwr (set_delayed_terminate
        (Some (mkTimer (timer_id t) (interval t) (started t) true))))
  | None => mret tt
  end.

Definition delayed_terminate (delay : Q) : M unit :=
  w ← get;
  match _delayed_terminate (pwr w) with
  | None =>
      id ← fresh;
      emit (TimerCreate id delay);;
      modify (with_pwr (set_delayed_terminate (Some (mkTimer id delay false false))));;
      emit (TimerStart id);;
      modify (with_pwr (set_delayed_terminate (Some (mkTimer id delay true false))))
  | Some _ => mret tt
  end.

Definition _gst_message_callback (msg : Message) : M unit :=
  match msg with
  | MsgEOS => terminate
  | MsgError src_name err =>
      if matches err ResourceError (ResourceError_member (code err)) then
        print "Stream ended, trying to quit gracefully.";;
        delayed_terminate default_delay;;
        w ← get;
        match _pipeline (pwr w) with
        | None => raise AttributeError
        | Some p =>
            match get_by_name p "sink" with
            | None => raise AttributeError
            | Some sink => emit (ElementSendEOS (pipeline_id p) sink)
            end
        end
      else
        print ("Error: " +:+ src_name +:+ " " +:+ message err)
  | MsgOther => mret tt
  end.

(** The pipeline [Gst.parse_launch] builds from the description of
    [_record]: the chain of elements, each with the properties the
    description sets. *)
Definition launch (fd node_id : Z) (crf vbv_maxrate location : string)
    : list Element :=
  [ mkElement "pipewiresrc" None [("fd", pretty fd); ("path", pretty node_id)];
    mkElement "videoconvert" None [];
    mkElement "queue" None [];
    mkElement "x264enc" None
      [("intra-refresh", "true"); ("quantizer", crf); ("speed-preset", "fast");
       ("pass", "qual"); ("bitrate", vbv_maxrate)];
    mkElement "h264parse" None [];
    mkElement "matroskamux" (Some "sink") [];
    mkElement "filesink" None [("location", location)] ].

Definition _record (node_id : Z) : M unit :=
  fd ← get_pipewire_fd;
  w ← get;
  id ← fresh;
  let els := launch fd node_id (crf (pwr w)) (vbv_maxrate (pwr w)) (location (pwr w)) in
  emit (ParseLaunch id els);;
  let p := mkPipeline id els GST_NULL in
  modify (with_pwr (set_pipeline (Some p)));;
  emit (BusAddSignalWatch id);;
  emit (BusConnect id);;
  print ("Saving file to " +:+ location (pwr w));;
  pipeline_set_state p GST_PLAYING.

(** [for x in l: body(x)] *)
Fixpoint for_each {A} (l : list A) (body : A -> M unit) : M unit :=
  match l with
  | [] => mret tt
  | x :: l' => body x;; for_each l' body
  end.

(** The closure [get_streams_callback] of [record]. A string has no pairs
    to unpack and a number cannot be iterated. *)
Definition get_streams_callback (streams : Value) : M unit :=
  match streams with
  | VNone => terminate
  | VStreams l =>
      for_each l (λ '(node_id, stream_properties),
        print ("Stream " +:+ pretty node_id);;
        _record node_id)
  | VStr EmptyString => mret tt
  | VStr (String _ _) => raise ValueError
  | VBool _ | VUInt32 _ => raise TypeError
  end.

Definition invoke (cb : Callback) : Value -> M unit :=
  match cb with
  | Closure_get_streams_callback => get_streams_callback
  end.

Definition record : M unit := get_streams Closure_get_streams_callback.

Definition softexit : M unit :=
  w ← get;
  match _pipeline (pwr w) with
  | Some p =>
      print "Caught SIGINT, trying to exit gracefully.";;
      emit (PipelineSendEOS (pipeline_id p));;
      delayed_terminate default_delay
  | None => emit LoopQuit
  end.

(** ** The main loop

    What the GLib main loop delivers to the program, one callback at a
    time: a [Response] signal of the session bus, a message of a pipeline's
    bus, the interrupt signal, the expiry of the timer. An exception that
    leaves a callback is reported by the loop and the loop goes on, with
    the state the callback reached. *)

Inductive Input :=
| Response (path : string) (response : Z) (results : gmap string Value)
| BusMessage (msg : Message)
| SIGINT
| TimerExpired.

(** A receiver is called when the signal is of the path it was added for. *)
Definition call_receiver (path : string) (response : Z)
    (results : gmap string Value) (w : World) (r : string * Handler) : World :=
  if bool_decide (r.1 = path)
  then exec (run_handler invoke r.2 response results) w
  else w.

(** Every receiver registered for the path of the signal is called, oldest
    first. *)
Definition deliver (path : string) (response : Z) (results : gmap string Value)
    (w : World) : World :=
  foldl (call_receiver path response results) w (receivers w).

Definition step (i : Input) (w : World) : World :=
  match i with
  | Response path response results => deliver path response results w
  | BusMessage msg =>
      (* there is a bus to hear from once a pipeline was built *)
      match _pipeline (pwr w) with
      | Some _ => exec (_gst_message_callback msg) w
      | None => w
      end
  | SIGINT => exec softexit w
  | TimerExpired =>
      (* the timer's thread calls its function unless [finished] is set *)
      match _delayed_terminate (pwr w) with
      | Some t => if started t && negb (finished t) then exec terminate w else w
      | None => w
      end
  end.

Definition run (inputs : list Input) (w : World) : World :=
  foldl (λ w' i, step i w') w inputs.

(** [main] from the construction of the recorder up to [pwr.loop.run()]:
    the recorder is built and [record] has issued the first request. The
    parsing of the command line before it, which settles [crf], [maxrate]
    and [location], is not part of the model. *)
Definition main (crf maxrate location unique_name : string) (fds : nat -> Z) : World :=
  exec record
    {| pwr := PipewireRecorder_init crf maxrate location unique_name;
       default_options := ∅;
       receivers := [];
       remote_fd := fds;
       objects := 0;
       trace := [] |}.

(** ** Reading a trace *)

Definition is_portal_call (e : Event) : bool :=
  match e with PortalCall _ _ _ => true | _ => false end.

Definition is_release (e : Event) : bool :=
  match e with SetState _ GST_NULL => true | _ => false end.

Definition is_quit (e : Event) : bool :=
  match e with LoopQuit => true | _ => false end.

Definition is_timer_create (e : Event) : bool :=
  match e with TimerCreate _ _ => true | _ => false end.

Definition count (f : Event -> bool) (t : list Event) : nat :=
  length (List.filter f t).

(** The pipelines built, in order: identity and elements. *)
Definition launches (t : list Event) : list (nat * list Element) :=
  omap (λ e, match e with ParseLaunch id els => Some (id, els) | _ => None end) t.

(** [element.get_property(key)] of the first element made by [fac]. *)
Definition element_property (fac key : string) (els : list Element) : option string :=
  e ← List.find (λ e, bool_decide (factory e = fac)) els;
  snd <$> List.find (λ kv, bool_decide (kv.1 = key)) (properties e).

(** The [handle_token] of each portal call, in order. *)
Definition request_tokens (t : list Event) : list (option Value) :=
  omap (λ e, match e with
             | PortalCall _ _ options => Some (options !! "handle_token")
             | _ => None
             end) t.

(** ** What the statements speak of *)

(** The calls [terminate] makes in [w]. *)
Definition terminate_calls (w : World) : list Event :=
  match _pipeline (pwr w) with
  | Some p => [SetState (pipeline_id p) GST_NULL]
  | None => []
  end ++ [LoopQuit] ++
  match _delayed_terminate (pwr w) with
  | Some t => [TimerCancel (timer_id t)]
  | None => []
  end.

(** The recorder [terminate] leaves: the pipeline in NULL, the timer
    finished. *)
Definition terminated (r : PipewireRecorder) : PipewireRecorder :=
  {| _dpm := _dpm r;
     _pipeline :=
       match _pipeline r with
       | Some p => Some (mkPipeline (pipeline_id p) (elements p) GST_NULL)
       | None => None
       end;
     crf := crf r;
     vbv_maxrate := vbv_maxrate r;
     location := location r;
     _delayed_terminate :=
       match _delayed_terminate r with
       | Some t => Some (mkTimer (timer_id t) (interval t) (started t) true)
       | None => None
       end |}.

(** The calls one [_record] makes. *)
Definition record_calls (node_id : Z) (w : World) : list Event :=
  let id := objects w in
  let els := launch (remote_fd w (exchanges (trace w))) node_id
               (crf (pwr w)) (vbv_maxrate (pwr w)) (location (pwr w)) in
  [ OpenPipeWireRemote (_session (dpm w));
    ParseLaunch id els;
    BusAddSignalWatch id;
    BusConnect id;
    Print ("Saving file to " +:+ location (pwr w));
    SetState id GST_PLAYING ].

(** The options a portal call carries: the caller's, or the shared default
    dictionary, with the token of the request written in. *)
Definition sent_options (options : option (gmap string Value)) (token : string)
    (w : World) : gmap string Value :=
  <["handle_token" := VStr token]> (default (default_options w) options).

(** The element the description of [_record] names [sink] is the muxer. *)
Definition muxer : Element := mkElement "matroskamux" (Some "sink") [].

(** The timer calls of [delayed_terminate] in [w]: a timer is created and
    started when the field holds none. *)
Definition arm_calls (delay : Q) (w : World) : list Event :=
  match _delayed_terminate (pwr w) with
  | None => [TimerCreate (objects w) delay; TimerStart (objects w)]
  | Some _ => []
  end.

(** The timer the field holds after [delayed_terminate]. *)
Definition armed_timer (delay : Q) (w : World) : Timer :=
  match _delayed_terminate (pwr w) with
  | None => mkTimer (objects w) delay true false
  | Some t => t
  end.

(** What a reply handler prints when the response code is not zero. *)
Definition failure_line (h : Handler) (response : Z) : string :=
  match h with
  | H_select_sources => "Failed to create session: " +:+ pretty response
  | H_start_portal => "Failed to select sources: " +:+ pretty response
  | H_process_streams => "Did not receive streams from portal."
  end.

(** The [i]-th pipeline built from world [w] on: its identity and its
    elements, with the descriptor the portal hands out at that exchange. *)
Definition nth_pipeline (w : World) (i : nat) (sd : StreamDescriptor)
    : nat * list Element :=
  ((objects w + i)%nat,
   launch (remote_fd w (exchanges (trace w) + i)%nat) sd.1
     (crf (pwr w)) (vbv_maxrate (pwr w)) (location (pwr w))).

(** The elements are the chain of the description of [_record], reading
    from the transport descriptor [fd] the node [node_id], encoding with
    the quality [crf] and the bit rate [maxrate], and writing to
    [location]. *)
Definition records_stream (fd node_id : Z) (crf maxrate location : string)
    (els : list Element) : Prop :=
  factory <$> els
  = ["pipewiresrc"; "videoconvert"; "queue"; "x264enc"; "h264parse";
     "matroskamux"; "filesink"]
  /\ element_property "pipewiresrc" "fd" els = Some (pretty fd)
  /\ element_property "pipewiresrc" "path" els = Some (pretty node_id)
  /\ element_property "x264enc" "quantizer" els = Some crf
  /\ element_property "x264enc" "bitrate" els = Some maxrate
  /\ element_property "filesink" "location" els = Some location.

(** The token the [k]-th request carries, as the options of the portal call
    hold it. *)
Definition nth_token (k : Z) : option Value := Some (VStr (token_of k)).

Definition preserves (I : World -> Prop) {A} (m : M A) : Prop :=
  forall w, I w -> I (exec m w).

(** What holds of every world the main loop reaches. *)
Record Inv (w : World) : Prop := mkInv {
  inv_callback : _callback (dpm w) = Some Closure_get_streams_callback;
  inv_counter : 0 ≤ _request_token_counter (dpm w);
  inv_tokens :
    request_tokens (trace w) = nth_token <$> seqZ 1 (_request_token_counter (dpm w));
  inv_receivers :
    (receivers w).*1 =
      (λ k, request_path_of (_sender_name (dpm w)) (token_of k))
        <$> seqZ 1 (_request_token_counter (dpm w));
  inv_timer :
    count is_timer_create (trace w) =
      match _delayed_terminate (pwr w) with Some _ => 1%nat | None => 0%nat end;
  inv_pipeline :
    forall p, _pipeline (pwr w) = Some p ->
      exists fd node_id,
        elements p = launch fd node_id (crf (pwr w)) (vbv_maxrate (pwr w))
                       (location (pwr w)) }.

(** ** Properties of the worlds a run reaches *)

(** The calls made on the session bus. *)
Definition is_bus_event (e : Event) : bool :=
  match e with
  | AddSignalReceiver _ _ _ _ _ | PortalCall _ _ _ => true
  | _ => false
  end.

(** [w'] is [w] after calls that are none of the session bus: the trace
    has grown by such calls, and the receivers, the shared default options
    and the negotiator's counter, sender name, callback and session token
    are as they were. *)
Record extends (w w' : World) : Prop := mkExtends {
  ext_trace :
    exists evs, trace w' = trace w ++ evs
                /\ Forall (λ e, is_bus_event e = false) evs;
  ext_receivers : receivers w' = receivers w;
  ext_default_options : default_options w' = default_options w;
  ext_counter : _request_token_counter (dpm w') = _request_token_counter (dpm w);
  ext_sender : _sender_name (dpm w') = _sender_name (dpm w);
  ext_callback : _callback (dpm w') = _callback (dpm w);
  ext_session_token : _session_token (dpm w') = _session_token (dpm w) }.

(** A property of worlds that such steps keep. *)
Definition closed (I : World -> Prop) : Prop :=
  forall w w', I w -> extends w w' -> I w'.

(** The options [_select_sources] passes. *)
Definition select_options : gmap string Value :=
  {[ "multiple" := VBool false; "types" := VUInt32 (Z.lor 1 2) ]}.

(** Every portal call comes right after the registration of a receiver on
    the request path of the token the call carries, and that receiver is
    registered. *)
Definition listeners_first (w : World) : Prop :=
  forall t1 t2 m args opts,
    trace w = t1 ++ PortalCall m args opts :: t2 ->
    exists h k,
      last t1 = Some (AddSignalReceiver h "Response" REQUEST_IFACE DESKTOP_IFACE
                        (request_path_of (_sender_name (dpm w)) (token_of k)))
      /\ opts !! "handle_token" = Some (VStr (token_of k))
      /\ (request_path_of (_sender_name (dpm w)) (token_of k), h) ∈ receivers w.

(** The portal methods called, in order. *)
Definition methods (t : list Event) : list PortalMethod :=
  omap (λ e, match e with PortalCall m _ _ => Some m | _ => None end) t.

(** The method whose reply a handler receives. *)
Definition awaited (h : Handler) : PortalMethod :=
  match h with
  | H_select_sources => CreateSession
  | H_start_portal => SelectSources
  | H_process_streams => Start
  end.

(** CreateSession was called first and never again, every Start comes
    after some SelectSources, and every receiver waits for the reply of a
    method that was called. *)
Record steps_in_order (w : World) : Prop := mkStepsInOrder {
  order_first :
    exists rest, methods (trace w) = CreateSession :: rest /\ CreateSession ∉ rest;
  order_start :
    forall ms1 ms2, methods (trace w) = ms1 ++ Start :: ms2 -> SelectSources ∈ ms1;
  order_receivers :
    forall p h, (p, h) ∈ receivers w -> awaited h ∈ methods (trace w) }.

(** The arguments and options of a portal call, by method. *)
Definition well_formed_call (session_token : string) (e : Event) : Prop :=
  match e with
  | PortalCall CreateSession args opts =>
      args = [] /\
      exists t, opts = <["handle_token" := VStr t]>
                         {[ "session_handle_token" := VStr session_token ]}
  | PortalCall SelectSources args opts =>
      (exists v, args = [v]) /\
      exists t, opts = <["handle_token" := VStr t]> select_options
  | PortalCall Start args opts =>
      (exists v, args = [v; VStr ""]) /\
      exists t, opts = {[ "handle_token" := VStr t ]}
  | _ => True
  end.

(** Every portal call made is well formed for the session token [u1], which
    the negotiator holds. *)
Record calls_well_formed (w : World) : Prop := mkCallsWellFormed {
  calls_shape : Forall (well_formed_call "u1") (trace w);
  calls_session_token : _session_token (dpm w) = "u1";
  (* the shared default dictionary holds no key but the token *)
  calls_default :
    forall k, k ≠ "handle_token" -> default_options w !! k = None }.

(** Whether the character occurs in the string. *)
Fixpoint occurs (c : ascii) (s : string) : bool :=
  match s with
  | EmptyString => false
  | String c' s' => Ascii.eqb c' c || occurs c s'
  end.

(** The sender name the negotiator holds. *)
Definition sender_is (name : string) (w : World) : Prop := _sender_name (dpm w) = name.

(** The field [_pipeline] holds the pipeline launched last, and none when
    none was launched. *)
Definition holds_last (w : World) : Prop :=
  last (launches (trace w))
  = (λ p, (pipeline_id p, elements p)) <$> _pipeline (pwr w).

(** ** Two runs *)

(** The run in which the portal lists one stream, as it stands when the
    pipeline plays. *)
Definition sample_world : World :=
  run [Response "/org/freedesktop/portal/desktop/request/1_42/u1" 0
         {[ "session_handle" := VStr "/s/1" ]};
       Response "/org/freedesktop/portal/desktop/request/1_42/u2" 0 ∅;
       Response "/org/freedesktop/portal/desktop/request/1_42/u3" 0
         {[ "streams" := VStreams [(42, ∅)] ]}]
      (main "18" "10000" "/home/u/out.mkv" ":1.42" (λ n, 7 + Z.of_nat n)).

(** The run in which the portal lists two streams. *)
Definition two_stream_world : World :=
  run [Response "/org/freedesktop/portal/desktop/request/1_42/u1" 0
         {[ "session_handle" := VStr "/s/1" ]};
       Response "/org/freedesktop/portal/desktop/request/1_42/u2" 0 ∅;
       Response "/org/freedesktop/portal/desktop/request/1_42/u3" 0
         {[ "streams" := VStreams [(42, ∅); (43, ∅)] ]}]
      (main "18" "10000" "/home/u/out.mkv" ":1.42" (λ n, 7 + Z.of_nat n)).

(** * Reasoning about computations *)

Section Laws.
Context {A B C : Type}.

Lemma bind_ret_l (a : A) (k : A -> M B) w : (mret a ≫= k) w = k a w.
Proof. reflexivity. Qed.

Lemma bind_raise_l (e : Exn) (k : A -> M B) w :
  (raise e ≫= k) w = (w, Raise e).
Proof. reflexivity. Qed.

Lemma bind_get (k : World -> M B) w : (get ≫= k) w = k w w.
Proof. reflexivity. Qed.

Lemma bind_modify f (k : unit -> M B) w : (modify f ≫= k) w = k tt (f w).
Proof. reflexivity. Qed.

Lemma bind_emit e (k : unit -> M B) w : (emit e ≫= k) w = k tt (log e w).
Proof. reflexivity. Qed.

Lemma bind_print line (k : unit -> M B) w :
  (print line ≫= k) w = k tt (log (Print line) w).
Proof. reflexivity. Qed.

Lemma bind_fresh (k : nat -> M B) w :
  (fresh ≫= k) w = k (objects w) (set_objects (S (objects w)) w).
Proof. reflexivity. Qed.

Lemma bind_bind (m : M A) (f : A -> M B) (g : B -> M C) w :
  ((m ≫= f) ≫= g) w = (m ≫= λ a, f a ≫= g) w.
Proof.
  unfold mbind, M_bind, bind. destruct (m w) as [w' [a|e]]; [|reflexivity].
  destruct (f a w') as [w'' [b|e]]; reflexivity.
Qed.

(** A computation whose run is known. *)
Lemma bind_run (m : M A) (k : A -> M B) w w' a :
  m w = (w', Return a) -> (m ≫= k) w = k a w'.
Proof. unfold mbind, M_bind, bind. intros ->. reflexivity. Qed.

Lemma bind_run_raise (m : M A) (k : A -> M B) w w' e :
  m w = (w', Raise e) -> (m ≫= k) w = (w', Raise e).
Proof. unfold mbind, M_bind, bind. intros ->. reflexivity. Qed.
End Laws.

Lemma run_ret {A} (a : A) w : (mret a : M A) w = (w, Return a).
Proof. reflexivity. Qed.

Lemma run_emit e w : emit e w = (log e w, Return tt).
Proof. reflexivity. Qed.

Lemma run_print line w : print line w = (log (Print line) w, Return tt).
Proof. reflexivity. Qed.

Lemma run_modify f w : modify f w = (f w, Return tt).
Proof. reflexivity. Qed.

Lemma run_raise {A} e w : (raise e : M A) w = (w, Raise e).
Proof. reflexivity. Qed.

(** One step of a computation applied to a world. *)
Ltac mstep :=
  first
    [ rewrite bind_bind | rewrite bind_get | rewrite bind_modify
    | rewrite bind_print | rewrite bind_emit | rewrite bind_fresh
    | rewrite bind_ret_l | rewrite bind_raise_l
    | rewrite run_print | rewrite run_emit | rewrite run_modify
    | rewrite run_ret | rewrite run_raise ].

(** Setters and projections of the records are computed; strings and
    numbers are left as they stand. *)
Ltac wsimpl :=
  unfold log, with_pwr, with_dpm, set_pipeline, set_delayed_terminate,
    set_request_token_counter, set_session, set_callback, set_default_options,
    add_receiver, set_objects, dpm in *;
  cbn [pwr default_options receivers remote_fd objects trace
       _dpm _pipeline crf vbv_maxrate location _delayed_terminate
       _request_token_counter _session_token_counter _sender_name
       _session_path _session_token _session _callback
       pipeline_id elements state timer_id interval started finished
       fst snd] in *.

(** Runs a computation on a world given by its fields. *)
Ltac mrun := wsimpl; repeat (mstep; wsimpl).

Ltac world_eq := mrun; rewrite <- ?app_assoc, ?app_nil_r; cbn [app]; reflexivity.

(** ** What each method does *)

Lemma terminate_run w :
  terminate w =
    ({| pwr := terminated (pwr w);
        default_options := default_options w;
        receivers := receivers w;
        remote_fd := remote_fd w;
        objects := objects w;
        trace := trace w ++ terminate_calls w |}, Return tt).
Proof.
  unfold terminate, terminate_calls, terminated, pipeline_set_state.
  destruct w as [[d p c v l t] o r f n tr].
  mrun. destruct p as [p|]; mrun; destruct t as [t|]; world_eq.
Qed.

Lemma delayed_terminate_armed delay w t :
  _delayed_terminate (pwr w) = Some t ->
  delayed_terminate delay w = (w, Return tt).
Proof. intros H. unfold delayed_terminate. mrun. rewrite H. reflexivity. Qed.

Lemma delayed_terminate_new delay w :
  _delayed_terminate (pwr w) = None ->
  delayed_terminate delay w =
    ({| pwr := set_delayed_terminate
                 (Some (mkTimer (objects w) delay true false)) (pwr w);
        default_options := default_options w;
        receivers := receivers w;
        remote_fd := remote_fd w;
        objects := S (objects w);
        trace := trace w ++ [TimerCreate (objects w) delay; TimerStart (objects w)] |},
     Return tt).
Proof.
  destruct w as [[d p c v l t] o r f n tr]. wsimpl. intros ->.
  unfold delayed_terminate. world_eq.
Qed.

Lemma softexit_no_pipeline w :
  _pipeline (pwr w) = None -> softexit w = (log LoopQuit w, Return tt).
Proof. intros H. unfold softexit. mrun. rewrite H. reflexivity. Qed.

Lemma softexit_pipeline w p :
  _pipeline (pwr w) = Some p ->
  softexit w =
    delayed_terminate default_delay
      (log (PipelineSendEOS (pipeline_id p))
         (log (Print "Caught SIGINT, trying to exit gracefully.") w)).
Proof. intros H. unfold softexit. mrun. rewrite H. mrun. reflexivity. Qed.

Lemma get_pipewire_fd_run w :
  get_pipewire_fd w =
    (log (OpenPipeWireRemote (_session (dpm w))) w,
     Return (remote_fd w (exchanges (trace w)))).
Proof. reflexivity. Qed.

Lemma _record_run node_id w :
  _record node_id w =
    ({| pwr := set_pipeline
                 (Some (mkPipeline (objects w)
                          (launch (remote_fd w (exchanges (trace w))) node_id
                             (crf (pwr w)) (vbv_maxrate (pwr w)) (location (pwr w)))
                          GST_PLAYING)) (pwr w);
        default_options := default_options w;
        receivers := receivers w;
        remote_fd := remote_fd w;
        objects := S (objects w);
        trace := trace w ++ record_calls node_id w |},
     Return tt).
Proof.
  destruct w as [[d p c v l t] o r f n tr].
  unfold _record, record_calls, pipeline_set_state.
  erewrite bind_run by apply get_pipewire_fd_run.
  world_eq.
Qed.

Lemma _new_request_path_run w :
  _new_request_path w =
    (with_pwr (with_dpm (set_request_token_counter
                           (_request_token_counter (dpm w) + 1))) w,
     Return (request_path_of (_sender_name (dpm w))
               (token_of (_request_token_counter (dpm w) + 1)),
             token_of (_request_token_counter (dpm w) + 1))).
Proof. reflexivity. Qed.

Lemma _dbus_screencast_run method callback args options w :
  let counter := _request_token_counter (dpm w) + 1 in
  let token := token_of counter in
  let path := request_path_of (_sender_name (dpm w)) token in
  _dbus_screencast method callback args options w =
    ({| pwr := with_dpm (set_request_token_counter counter) (pwr w);
        default_options :=
          match options with
          | Some _ => default_options w
          | None => sent_options None token w
          end;
        receivers := receivers w ++ [(path, callback)];
        remote_fd := remote_fd w;
        objects := objects w;
        trace := trace w ++
          [AddSignalReceiver callback "Response" REQUEST_IFACE DESKTOP_IFACE path;
           PortalCall method args (sent_options options token w)] |},
     Return tt).
Proof.
  destruct w as [[d p c v l t] o r f n tr].
  cbn zeta. unfold _dbus_screencast, sent_options.
  erewrite bind_run by apply _new_request_path_run.
  cbn beta iota. destruct options as [o'|]; world_eq.
Qed.

Lemma emitted_run {A} (m : M A) w w' o (evs : list Event) :
  m w = (w', o) -> trace w' = trace w ++ evs -> emitted m w = evs.
Proof.
  intros Hm Ht. unfold emitted, exec. rewrite Hm. cbn [fst]. rewrite Ht.
  apply drop_app_length.
Qed.


Lemma exec_terminate w :
  exec terminate w =
    {| pwr := terminated (pwr w);
       default_options := default_options w;
       receivers := receivers w;
       remote_fd := remote_fd w;
       objects := objects w;
       trace := trace w ++ terminate_calls w |}.
Proof. unfold exec. rewrite terminate_run. reflexivity. Qed.


Lemma terminate_calls_terminated w :
  terminate_calls (exec terminate w) = terminate_calls w.
Proof.
  rewrite exec_terminate. unfold terminate_calls, terminated. cbn [pwr _pipeline _delayed_terminate].
  destruct (_pipeline (pwr w)), (_delayed_terminate (pwr w)); reflexivity.
Qed.

Lemma get_by_name_sink p fd node_id c v l :
  elements p = launch fd node_id c v l -> get_by_name p "sink" = Some muxer.
Proof. intros H. unfold get_by_name. rewrite H. reflexivity. Qed.

Lemma launch_records_stream fd node_id c v l :
  records_stream fd node_id c v l (launch fd node_id c v l).
Proof. repeat split. Qed.

Lemma delayed_terminate_spec delay w :
  exists w',
    delayed_terminate delay w = (w', Return tt) /\
    trace w' = trace w ++ arm_calls delay w /\
    _delayed_terminate (pwr w') = Some (armed_timer delay w) /\
    _pipeline (pwr w') = _pipeline (pwr w).
Proof.
  unfold arm_calls, armed_timer.
  destruct (_delayed_terminate (pwr w)) as [t|] eqn:Ht.
  - exists w. rewrite (delayed_terminate_armed _ _ _ Ht), app_nil_r. done.
  - eexists. rewrite (delayed_terminate_new _ _ Ht). split; [reflexivity|]. done.
Qed.

(** * The handshake *)

Lemma run_handler_failure inv h response results w cb :
  response ≠ 0 ->
  _callback (dpm w) = Some cb ->
  run_handler inv h response results w =
    inv cb VNone (log (Print (failure_line h response)) w).
Proof.
  intros Hr Hcb.
  destruct h; cbn [run_handler failure_line];
    unfold _process_streams, _start_portal, _select_sources, call_callback;
    rewrite (bool_decide_eq_true_2 _ Hr); mstep; mstep;
    unfold dpm in *; cbn [log pwr]; rewrite Hcb; reflexivity.
Qed.

(** * Invariants of a run *)

Section Preserves.
Context (I : World -> Prop).

Lemma preserves_ret {A} (a : A) : preserves I (mret a : M A).
Proof. intros w H. exact H. Qed.

Lemma preserves_raise {A} e : preserves I (raise e : M A).
Proof. intros w H. exact H. Qed.

Lemma preserves_get : preserves I get.
Proof. intros w H. exact H. Qed.

Lemma preserves_bind {A B} (m : M A) (k : A -> M B) :
  preserves I m -> (forall a, preserves I (k a)) -> preserves I (m ≫= k).
Proof.
  intros Hm Hk w H. specialize (Hm w H). unfold exec in *.
  unfold mbind, M_bind, bind. destruct (m w) as [w' [a|e]]; cbn [fst] in *.
  - apply Hk, Hm.
  - exact Hm.
Qed.

Lemma preserves_modify f : (forall w, I w -> I (f w)) -> preserves I (modify f).
Proof. intros Hf w H. apply Hf, H. Qed.

Lemma preserves_for_each {A} (l : list A) (body : A -> M unit) :
  (forall x, preserves I (body x)) -> preserves I (for_each l body).
Proof.
  intros Hb. induction l as [|x l IH]; cbn [for_each].
  - apply preserves_ret.
  - apply preserves_bind; [apply Hb|intros _; exact IH].
Qed.
End Preserves.

Lemma count_app f (t1 t2 : list Event) : count f (t1 ++ t2) = (count f t1 + count f t2)%nat.
Proof. unfold count. rewrite List.filter_app, length_app. reflexivity. Qed.

Lemma request_tokens_app (t1 t2 : list Event) :
  request_tokens (t1 ++ t2) = request_tokens t1 ++ request_tokens t2.
Proof. apply omap_app. Qed.

(** A step that calls no portal method, makes no timer and keeps the
    counter, the receivers and the callback keeps the invariant. *)
Lemma Inv_frame (w w' : World) (evs : list Event) :
  Inv w ->
  trace w' = trace w ++ evs ->
  request_tokens evs = [] ->
  count is_timer_create evs = 0%nat ->
  _callback (dpm w') = _callback (dpm w) ->
  _request_token_counter (dpm w') = _request_token_counter (dpm w) ->
  _sender_name (dpm w') = _sender_name (dpm w) ->
  receivers w' = receivers w ->
  (is_Some (_delayed_terminate (pwr w')) <-> is_Some (_delayed_terminate (pwr w))) ->
  (forall p, _pipeline (pwr w') = Some p ->
     exists fd node_id,
       elements p = launch fd node_id (crf (pwr w')) (vbv_maxrate (pwr w'))
                      (location (pwr w'))) ->
  Inv w'.
Proof.
  intros [Hcb Hc Htok Hrcv Htm Hp] Ht Hq Hn Hcb' Hc' Hs' Hr' Htm' Hp'.
  split.
  - congruence.
  - rewrite Hc'. exact Hc.
  - rewrite Ht, request_tokens_app, Hq, app_nil_r, Hc'. exact Htok.
  - rewrite Hr', Hs', Hc'. exact Hrcv.
  - rewrite Ht, count_app, Hn, Nat.add_0_r, Htm.
    destruct (_delayed_terminate (pwr w)), (_delayed_terminate (pwr w'));
      try reflexivity.
    + destruct Htm' as [_ H]. destruct H; [eauto|discriminate].
    + destruct Htm' as [H _]. destruct H; [eauto|discriminate].
  - exact Hp'.
Qed.

Lemma Inv_emit e :
  request_tokens [e] = [] -> count is_timer_create [e] = 0%nat ->
  preserves Inv (emit e).
Proof.
  intros Hq Hn w HI. eapply (Inv_frame w _ [e]); try done.
  apply HI.
Qed.

Lemma Inv_terminate : preserves Inv terminate.
Proof.
  intros w HI. rewrite exec_terminate.
  eapply (Inv_frame w _ (terminate_calls w)); try done.
  - unfold terminate_calls.
    destruct (_pipeline (pwr w)), (_delayed_terminate (pwr w)); reflexivity.
  - unfold terminate_calls.
    destruct (_pipeline (pwr w)), (_delayed_terminate (pwr w)); reflexivity.
  - cbn [pwr terminated _delayed_terminate].
    destruct (_delayed_terminate (pwr w)); split; intros [? H]; eauto; discriminate.
  - cbn [pwr terminated _pipeline crf vbv_maxrate location]. intros p Hp.
    destruct (_pipeline (pwr w)) as [p0|] eqn:Hp0; [|discriminate].
    injection Hp as <-. cbn [elements]. eapply inv_pipeline; eauto.
Qed.

Lemma Inv_delayed_terminate delay : preserves Inv (delayed_terminate delay).
Proof.
  intros w HI. unfold exec.
  destruct (_delayed_terminate (pwr w)) as [t|] eqn:Ht.
  - rewrite (delayed_terminate_armed _ _ _ Ht). exact HI.
  - rewrite (delayed_terminate_new _ _ Ht). cbn [fst].
    destruct HI as [Hcb Hc Htok Hrcv Htm Hp]. rewrite Ht in Htm.
    split; cbn [trace pwr dpm set_delayed_terminate _dpm _delayed_terminate
                _pipeline crf vbv_maxrate location receivers]; try assumption.
    + rewrite request_tokens_app, app_nil_r. exact Htok.
    + rewrite count_app, Htm. reflexivity.
Qed.

Lemma Inv__record node_id : preserves Inv (_record node_id).
Proof.
  intros w HI. unfold exec. rewrite _record_run. cbn [fst].
  eapply (Inv_frame w _ (record_calls node_id w)); try done.
  cbn [pwr set_pipeline _pipeline crf vbv_maxrate location].
  intros p [= <-]. cbn [elements]. eauto.
Qed.

Lemma Inv__dbus_screencast method callback args options :
  preserves Inv (_dbus_screencast method callback args options).
Proof.
  intros w [Hcb Hc Htok Hrcv Htm Hp]. unfold exec.
  rewrite _dbus_screencast_run. cbn [fst].
  assert (Hseq : seqZ 1 (_request_token_counter (dpm w) + 1) =
                 seqZ 1 (_request_token_counter (dpm w))
                 ++ [_request_token_counter (dpm w) + 1]).
  { rewrite seqZ_app by lia. f_equal. rewrite Z.add_comm. reflexivity. }
  split; unfold dpm in *;
    cbn [trace pwr with_dpm set_request_token_counter _dpm _delayed_terminate
         _pipeline crf vbv_maxrate location receivers _callback
         _request_token_counter _sender_name]; try assumption.
  - lia.
  - rewrite request_tokens_app, Htok, Hseq, fmap_app. f_equal.
    unfold request_tokens, sent_options, nth_token. cbn [omap list_omap].
    rewrite lookup_insert_eq. reflexivity.
  - rewrite fmap_app, Hrcv, Hseq, fmap_app. reflexivity.
  - rewrite count_app, Htm. cbn. lia.
Qed.

(** Decomposes a computation into the steps whose preservation is known. *)
Ltac pres :=
  repeat match goal with
    | |- preserves _ terminate => apply Inv_terminate
    | |- preserves _ (delayed_terminate _) => apply Inv_delayed_terminate
    | |- preserves _ (_record _) => apply Inv__record
    | |- preserves _ (_dbus_screencast _ _ _ _) => apply Inv__dbus_screencast
    | |- preserves _ (mret _) => apply preserves_ret
    | |- preserves _ (raise _) => apply preserves_raise
    | |- preserves _ get => apply preserves_get
    | |- preserves _ (emit _) => apply Inv_emit; reflexivity
    | |- preserves _ (print _) => apply Inv_emit; reflexivity
    | |- preserves _ (_ ≫= _) => apply preserves_bind; [|intros ?]
    | |- preserves _ (for_each _ _) => apply preserves_for_each; intros ?
    | |- preserves _ (match ?x with _ => _ end) => destruct x
    end.

Lemma Inv_set_session v :
  preserves Inv (modify (with_pwr (with_dpm (set_session v)))).
Proof.
  apply preserves_modify. intros w HI.
  eapply (Inv_frame w _ []); try done.
  - cbn [trace with_pwr]. rewrite app_nil_r. reflexivity.
  - apply HI.
Qed.

Lemma Inv_get_streams_callback streams : preserves Inv (get_streams_callback streams).
Proof. unfold get_streams_callback. pres. Qed.

Lemma Inv_invoke cb arg : preserves Inv (invoke cb arg).
Proof. destruct cb. apply Inv_get_streams_callback. Qed.

Lemma Inv_call_callback arg : preserves Inv (call_callback invoke arg).
Proof. unfold call_callback. pres. apply Inv_invoke. Qed.

Lemma Inv_run_handler h response results :
  preserves Inv (run_handler invoke h response results).
Proof.
  destruct h; cbn [run_handler];
    unfold _process_streams, _start_portal, _select_sources, subscript;
    pres; try apply Inv_call_callback; apply Inv_set_session.
Qed.

Lemma Inv_softexit : preserves Inv softexit.
Proof. unfold softexit. pres. Qed.

Lemma Inv__gst_message_callback msg : preserves Inv (_gst_message_callback msg).
Proof. unfold _gst_message_callback. pres. Qed.

Lemma foldl_invariant {A} (I : World -> Prop) (f : World -> A -> World) (l : list A) :
  (forall w x, I w -> I (f w x)) -> forall w, I w -> I (foldl f w l).
Proof.
  intros Hf. induction l as [|x l IH]; intros w H; cbn [foldl]; [exact H|].
  apply IH, Hf, H.
Qed.

Lemma Inv_step i w : Inv w -> Inv (step i w).
Proof.
  intros HI. destruct i as [path response results|msg| |]; cbn [step].
  - unfold deliver. apply foldl_invariant; [|exact HI].
    intros w' r HI'. unfold call_receiver.
    destruct (bool_decide (r.1 = path)); [|exact HI'].
    apply Inv_run_handler, HI'.
  - destruct (_pipeline (pwr w)); [|exact HI].
    apply Inv__gst_message_callback, HI.
  - apply Inv_softexit, HI.
  - destruct (_delayed_terminate (pwr w)) as [t|]; [|exact HI].
    destruct (started t && negb (finished t)); [|exact HI].
    apply Inv_terminate, HI.
Qed.

Lemma Inv_main crf maxrate location unique_name fds :
  Inv (main crf maxrate location unique_name fds).
Proof.
  unfold main, record, get_streams. unfold exec at 1.
  mstep. mstep.
  apply (Inv__dbus_screencast CreateSession H_select_sources []).
  split; done.
Qed.

Lemma Inv_run inputs w : Inv w -> Inv (run inputs w).
Proof.
  intros HI. unfold run. apply foldl_invariant; [|exact HI].
  intros w' i. apply Inv_step.
Qed.

(** * One pipeline per stream *)

Lemma exchanges_app (t1 t2 : list Event) :
  exchanges (t1 ++ t2) = (exchanges t1 + exchanges t2)%nat.
Proof. unfold exchanges. rewrite List.filter_app, length_app. reflexivity. Qed.

Lemma launches_app (t1 t2 : list Event) :
  launches (t1 ++ t2) = launches t1 ++ launches t2.
Proof. apply omap_app. Qed.

Lemma record_streams (l : list StreamDescriptor) :
  forall w, exists w' evs,
    get_streams_callback (VStreams l) w = (w', Return tt)
    /\ trace w' = trace w ++ evs
    /\ launches evs = imap (nth_pipeline w) l
    /\ exchanges evs = length l
    /\ count is_portal_call evs = 0%nat
    /\ objects w' = (objects w + length l)%nat
    /\ remote_fd w' = remote_fd w
    /\ crf (pwr w') = crf (pwr w)
    /\ vbv_maxrate (pwr w') = vbv_maxrate (pwr w)
    /\ location (pwr w') = location (pwr w).
Proof.
  unfold get_streams_callback.
  induction l as [|[node_id props] l IH]; intros w.
  - exists w, []. cbn [for_each]. rewrite app_nil_r, Nat.add_0_r. done.
  - cbn [for_each].
    pose proof (_record_run node_id (log (Print ("Stream " +:+ pretty node_id)) w))
      as Hrec.
    match type of Hrec with _ = (?w1, _) => set (w1' := w1) in * end.
    destruct (IH w1') as (w' & evs & Hrun & Ht & Hl & Hx & Hc & Ho & Hf & Hcrf & Hv & Hloc).
    exists w',
      (Print ("Stream " +:+ pretty node_id)
         :: record_calls node_id (log (Print ("Stream " +:+ pretty node_id)) w)
         ++ evs).
    assert (He : exchanges (trace w ++ [Print ("Stream " +:+ pretty node_id)])
                 = exchanges (trace w)).
    { rewrite exchanges_app. cbn. lia. }
    split; [|split; [|split; [|split; [|split]]]].
    + mstep. mstep. rewrite (bind_run _ _ _ _ _ Hrec). exact Hrun.
    + rewrite Ht. subst w1'. cbn [trace log]. rewrite <- !app_assoc. reflexivity.
    + rewrite app_comm_cons, launches_app, Hl, imap_cons.
      unfold record_calls, nth_pipeline at 2. cbn [log trace objects remote_fd pwr].
      rewrite He, !Nat.add_0_r. cbn [launches omap list_omap app fst].
      f_equal. apply imap_ext. intros i sd _. unfold nth_pipeline, compose. subst w1'.
      cbn [objects trace remote_fd pwr set_pipeline crf vbv_maxrate location log].
      rewrite exchanges_app, exchanges_app.
      unfold record_calls. cbn [exchanges List.filter is_exchange length].
      rewrite Nat.add_0_r. f_equal; [lia|]. f_equal. f_equal. lia.
    + rewrite app_comm_cons, exchanges_app, Hx. cbn [length].
      unfold record_calls. cbn. reflexivity.
    + rewrite app_comm_cons, count_app, Hc. unfold record_calls. cbn. reflexivity.
    + rewrite Ho, Hf, Hcrf, Hv, Hloc. subst w1'.
      cbn [objects remote_fd pwr set_pipeline crf vbv_maxrate location log length].
      repeat split; lia.
Qed.

(** * Request tokens *)

Lemma token_of_inj : Inj (=) (=) token_of.
Proof.
  intros a b H. unfold token_of in H.
  apply (inj pretty). exact (String.app_inj "u" _ _ H).
Qed.

Lemma nth_token_inj : Inj (=) (=) nth_token.
Proof. intros a b H. apply token_of_inj. unfold nth_token in H. congruence. Qed.

Lemma request_path_of_inj sender : Inj (=) (=) (λ k, request_path_of sender (token_of k)).
Proof.
  intros a b H. unfold request_path_of in H.
  apply token_of_inj.
  exact (String.app_inj "/" _ _
           (String.app_inj sender _ _
              (String.app_inj "/request/" _ _
                 (String.app_inj DESKTOP_PATH _ _ H)))).
Qed.

Lemma deliver_unregistered path response results (l : list (string * Handler)) w :
  path ∉ l.*1 -> foldl (call_receiver path response results) w l = w.
Proof.
  induction l as [|r l IH]; intros Hn; [reflexivity|].
  cbn [foldl]. rewrite fmap_cons in Hn. apply not_elem_of_cons in Hn as [Hne Hn].
  unfold call_receiver at 2. rewrite bool_decide_eq_false_2 by congruence.
  apply IH, Hn.
Qed.

(** A reply on a path with a receiver, paths being distinct: the one
    receiver of the path runs. *)
Lemma deliver_registered path h response results w :
  NoDup (receivers w).*1 ->
  (path, h) ∈ receivers w ->
  deliver path response results w = exec (run_handler invoke h response results) w.
Proof.
  unfold deliver. generalize (receivers w) as l. intros l. revert w.
  induction l as [|[p h'] l IH]; intros w Hnd Hin.
  - inversion Hin.
  - rewrite fmap_cons in Hnd. apply NoDup_cons in Hnd as [Hp Hnd]. cbn [fst] in Hp.
    cbn [foldl]. unfold call_receiver at 2. cbn [fst snd].
    apply elem_of_cons in Hin as [[= <- <-]|Hin].
    + rewrite bool_decide_eq_true_2 by reflexivity.
      apply deliver_unregistered, Hp.
    + rewrite bool_decide_eq_false_2.
      * apply IH; assumption.
      * intros ->. apply Hp. apply (list_elem_of_fmap_2 fst _ _ Hin).
Qed.

(** * The properties of the specification *)

(** C1. A reply with a response code other than zero, to any of the three
    steps. Its handler prints the line for the failure and calls the
    continuation stored by [get_streams] with [None], and does nothing
    else, whatever the continuation is. In every world the main loop
    reaches, such a reply on the path of a pending request prints the line
    and runs the continuation of [record] on [None], which is [terminate]:
    no portal method is called, no receiver is added and no request token
    is taken, so no later step is issued. *)
Theorem failed_step_ends_handshake (response : Z) (results : gmap string Value) :
  response ≠ 0 ->
  (forall (inv : Callback -> Value -> M unit) h continuation w,
     _callback (dpm w) = Some continuation ->
     run_handler inv h response results w =
       inv continuation VNone (log (Print (failure_line h response)) w))
  /\ (forall crf maxrate location unique_name fds inputs path h,
        let w := run inputs (main crf maxrate location unique_name fds) in
        let w' := step (Response path response results) w in
        (path, h) ∈ receivers w ->
        w' = exec terminate (log (Print (failure_line h response)) w)
        /\ trace w' = trace w ++ Print (failure_line h response) :: terminate_calls w
        /\ count is_portal_call (trace w') = count is_portal_call (trace w)
        /\ receivers w' = receivers w
        /\ _request_token_counter (dpm w') = _request_token_counter (dpm w)).
Proof.
  intros Hr. split.
  - intros inv h continuation w Hcb. apply run_handler_failure; assumption.
  - intros crf maxrate location unique_name fds inputs path h w w' Hin.
    assert (HI : Inv w) by apply Inv_run, Inv_main.
    assert (Hnd : NoDup (receivers w).*1).
    { rewrite (inv_receivers _ HI).
      apply NoDup_fmap_2; [apply request_path_of_inj|apply NoDup_seqZ]. }
    assert (Hw' : w' = exec terminate (log (Print (failure_line h response)) w)).
    { subst w'. cbn [step]. rewrite (deliver_registered _ _ _ _ _ Hnd Hin).
      unfold exec.
      rewrite (run_handler_failure invoke h response results w _ Hr (inv_callback _ HI)).
      reflexivity. }
    split; [exact Hw'|]. rewrite Hw', exec_terminate.
    cbn [trace receivers pwr dpm log terminated _dpm].
    change (terminate_calls (log (Print (failure_line h response)) w))
      with (terminate_calls w).
    rewrite <- app_assoc. split; [reflexivity|].
    split; [|split; reflexivity].
    rewrite count_app. change (?a :: ?l) with ([a] ++ l). rewrite count_app.
    unfold terminate_calls.
    destruct (_pipeline (pwr w)), (_delayed_terminate (pwr w)); cbn; lia.
Qed.

Lemma failed_step_ends_handshake_witness :
  let w := run [Response "/org/freedesktop/portal/desktop/request/1_42/u1" 0
                  {[ "session_handle" := VStr "/s/1" ]}]
               (main "18" "10000" "/home/u/out.mkv" ":1.42" (λ _, 7)) in
  trace (step (Response "/org/freedesktop/portal/desktop/request/1_42/u2" 1 ∅) w)
  = trace w ++ [Print "Failed to select sources: 1"; LoopQuit].
Proof.
  refine (proj1 (proj2 (proj2 (failed_step_ends_handshake 1 ∅ _)
            "18" "10000" "/home/u/out.mkv" ":1.42" (λ _, 7)
            [Response "/org/freedesktop/portal/desktop/request/1_42/u1" 0
               {[ "session_handle" := VStr "/s/1" ]}]
            "/org/freedesktop/portal/desktop/request/1_42/u2" H_start_portal _))).
  - lia.
  - apply list_elem_of_lookup_2 with 1%nat. vm_compute. reflexivity.
Defined.




(** C3, as stated, fails for the interrupt: on the recorder that
    plays one stream, [softexit] sends the end-of-stream event to the
    pipeline as a whole and nothing to the element named [sink]. *)
Lemma softexit_sends_eos_to_pipeline :
  emitted softexit sample_world =
    [Print "Caught SIGINT, trying to exit gracefully.";
     PipelineSendEOS 0; TimerCreate 1 default_delay; TimerStart 1]
  /\ ~ (exists p sink,
          _pipeline (pwr sample_world) = Some p /\
          get_by_name p "sink" = Some sink /\
          ElementSendEOS (pipeline_id p) sink ∈ emitted softexit sample_world).
Proof.
  assert (He : emitted softexit sample_world =
    [Print "Caught SIGINT, trying to exit gracefully.";
     PipelineSendEOS 0; TimerCreate 1 default_delay; TimerStart 1])
    by (vm_compute; reflexivity).
  split; [exact He|].
  intros (p & sink & _ & _ & Hin). rewrite He in Hin.
  repeat (apply elem_of_cons in Hin as [Hin|Hin]; [discriminate Hin|]).
  inversion Hin.
Qed.

(** C3, amended. With a pipeline built by [_record]: on an error of the
    resource class the end-of-stream event goes to the element named [sink],
    the muxer, after the timer calls; on the interrupt it goes to the
    pipeline as a whole, before the timer calls. The timer calls are those
    of [delayed_terminate] with the default delay: a timer is created and
    started if the field held none, and the field holds a timer afterwards. *)
Theorem draining_triggers (w : World) (p : Pipeline) fd node_id c v l :
  _pipeline (pwr w) = Some p ->
  elements p = launch fd node_id c v l ->
  (forall src_name err,
     matches err ResourceError (ResourceError_member (code err)) = true ->
     emitted (_gst_message_callback (MsgError src_name err)) w =
       [Print "Stream ended, trying to quit gracefully."]
       ++ arm_calls default_delay w
       ++ [ElementSendEOS (pipeline_id p) muxer]
     /\ _delayed_terminate (pwr (exec (_gst_message_callback (MsgError src_name err)) w))
        = Some (armed_timer default_delay w))
  /\ emitted softexit w =
       [Print "Caught SIGINT, trying to exit gracefully.";
        PipelineSendEOS (pipeline_id p)]
       ++ arm_calls default_delay w
  /\ _delayed_terminate (pwr (exec softexit w)) = Some (armed_timer default_delay w).
Proof.
  intros Hp Hels. split; [|split].
  - intros src_name err Hm.
    set (w0 := log (Print "Stream ended, trying to quit gracefully.") w).
    destruct (delayed_terminate_spec default_delay w0) as (w' & Hrun & Ht & Hd & Hpp).
    assert (Hcb : _gst_message_callback (MsgError src_name err) w =
                  (log (ElementSendEOS (pipeline_id p) muxer) w', Return tt)).
    { unfold _gst_message_callback. rewrite Hm. mstep. fold w0.
      rewrite (bind_run _ _ _ _ _ Hrun). mstep.
      rewrite Hpp. subst w0. cbn [log pwr]. rewrite Hp.
      rewrite (get_by_name_sink _ _ _ _ _ _ Hels). reflexivity. }
    split.
    + eapply emitted_run; [exact Hcb|].
      cbn [log trace]. rewrite Ht. subst w0. cbn [log trace].
      rewrite <- !app_assoc. reflexivity.
    + unfold exec. rewrite Hcb. cbn [fst log pwr]. exact Hd.
  - set (w0 := log (PipelineSendEOS (pipeline_id p))
                 (log (Print "Caught SIGINT, trying to exit gracefully.") w)).
    destruct (delayed_terminate_spec default_delay w0) as (w' & Hrun & Ht & Hd & Hpp).
    eapply emitted_run.
    + rewrite (softexit_pipeline _ _ Hp). exact Hrun.
    + rewrite Ht. subst w0. cbn [log trace]. rewrite <- !app_assoc. reflexivity.
  - set (w0 := log (PipelineSendEOS (pipeline_id p))
                 (log (Print "Caught SIGINT, trying to exit gracefully.") w)).
    destruct (delayed_terminate_spec default_delay w0) as (w' & Hrun & Ht & Hd & Hpp).
    unfold exec. rewrite (softexit_pipeline _ _ Hp). fold w0. rewrite Hrun.
    exact Hd.
Qed.

Lemma draining_triggers_witness :
  emitted (_gst_message_callback
             (MsgError "pipewiresrc0" (mkGError ResourceError 5 "stream error")))
          sample_world
  = [Print "Stream ended, trying to quit gracefully.";
     TimerCreate 1 default_delay; TimerStart 1;
     ElementSendEOS 0 muxer].
Proof.
  refine (proj1 (proj1 (draining_triggers sample_world
           (mkPipeline 0 (launch 7 42 "18" "10000" "/home/u/out.mkv") GST_PLAYING)
           7 42 "18" "10000" "/home/u/out.mkv" _ _) "pipewiresrc0"
           (mkGError ResourceError 5 "stream error") _)).
  - vm_compute. reflexivity.
  - reflexivity.
  - reflexivity.
Defined.

(** C5. A successful Start reply with the streams [l]: the reply handler
    returns, and the pipelines built while it runs are, in order, one per
    descriptor of [l], each a new object; so there are exactly [length l]
    of them. The pipeline built for the [i]-th descriptor is the chain of
    [_record] whose source element has for [path] the node id of that
    descriptor and for [fd] the descriptor the portal hands out at the
    [i]-th exchange from here, and whose encoder and file sink have the
    parameters of the recorder. *)
Theorem one_pipeline_per_descriptor
    (l : list StreamDescriptor) (results : gmap string Value) (w : World) :
  results !! "streams" = Some (VStreams l) ->
  _callback (dpm w) = Some Closure_get_streams_callback ->
  result (_process_streams invoke 0 results) w = Return tt
  /\ launches (emitted (_process_streams invoke 0 results) w)
     = imap (nth_pipeline w) l
  /\ length (launches (emitted (_process_streams invoke 0 results) w)) = length l
  /\ (forall i sd, l !! i = Some sd ->
        exists els,
          launches (emitted (_process_streams invoke 0 results) w) !! i
          = Some ((objects w + i)%nat, els)
          /\ records_stream (remote_fd w (exchanges (trace w) + i)%nat) sd.1
               (crf (pwr w)) (vbv_maxrate (pwr w)) (location (pwr w)) els).
Proof.
  intros Hs Hcb.
  set (w0 := log (Print "Sources selected") w).
  destruct (record_streams l w0)
    as (w' & evs & Hrun & Ht & Hl & _).
  assert (Hps : _process_streams invoke 0 results w = (w', Return tt)).
  { unfold _process_streams, subscript, call_callback.
    rewrite bool_decide_eq_false_2 by (intros H; apply H; reflexivity).
    mstep. fold w0. rewrite Hs. mstep. mstep.
    unfold dpm in *. subst w0. cbn [log pwr]. rewrite Hcb. exact Hrun. }
  assert (He : emitted (_process_streams invoke 0 results) w
               = Print "Sources selected" :: evs).
  { eapply emitted_run; [exact Hps|]. rewrite Ht. subst w0. cbn [log trace].
    rewrite <- app_assoc. reflexivity. }
  assert (Hlaunch : launches (emitted (_process_streams invoke 0 results) w)
                    = imap (nth_pipeline w) l).
  { rewrite He. change (launches (Print "Sources selected" :: evs)) with (launches evs).
    rewrite Hl. apply imap_ext. intros i sd _. unfold nth_pipeline. subst w0.
    cbn [log objects remote_fd trace pwr]. rewrite exchanges_app.
    cbn [exchanges List.filter is_exchange length]. rewrite Nat.add_0_r.
    reflexivity. }
  split; [|split; [|split]].
  - unfold result. rewrite Hps. reflexivity.
  - exact Hlaunch.
  - rewrite Hlaunch. apply length_imap.
  - intros i sd Hi. exists (nth_pipeline w i sd).2. split.
    + rewrite Hlaunch, list_lookup_imap.
      exact (f_equal (fmap (nth_pipeline w i)) Hi).
    + apply launch_records_stream.
Qed.

Lemma one_pipeline_per_descriptor_witness :
  launches (emitted (_process_streams invoke 0 {[ "streams" := VStreams [(42, ∅); (43, ∅)] ]})
              (main "18" "10000" "/home/u/out.mkv" ":1.42" (λ n, 7 + Z.of_nat n)))
  = [(0%nat,
      [mkElement "pipewiresrc" None [("fd", "7"); ("path", "42")];
       mkElement "videoconvert" None [];
       mkElement "queue" None [];
       mkElement "x264enc" None
         [("intra-refresh", "true"); ("quantizer", "18"); ("speed-preset", "fast");
          ("pass", "qual"); ("bitrate", "10000")];
       mkElement "h264parse" None [];
       mkElement "matroskamux" (Some "sink") [];
       mkElement "filesink" None [("location", "/home/u/out.mkv")]]);
     (1%nat,
      [mkElement "pipewiresrc" None [("fd", "8"); ("path", "43")];
       mkElement "videoconvert" None [];
       mkElement "queue" None [];
       mkElement "x264enc" None
         [("intra-refresh", "true"); ("quantizer", "18"); ("speed-preset", "fast");
          ("pass", "qual"); ("bitrate", "10000")];
       mkElement "h264parse" None [];
       mkElement "matroskamux" (Some "sink") [];
       mkElement "filesink" None [("location", "/home/u/out.mkv")]])].
Proof.
  etransitivity.
  - refine (proj1 (proj2 (one_pipeline_per_descriptor [(42, ∅); (43, ∅)]
              {[ "streams" := VStreams [(42, ∅); (43, ∅)] ]}
              (main "18" "10000" "/home/u/out.mkv" ":1.42" (λ n, 7 + Z.of_nat n)) _ _))).
    + vm_compute. reflexivity.
    + reflexivity.
  - vm_compute. reflexivity.
Defined.

(** C4, as stated, fails: in the run in which Start returns two
    descriptors the session is exchanged for a descriptor twice. *)
Lemma two_streams_two_exchanges :
  exchanges (trace two_stream_world) = 2%nat
  /\ ~ (exchanges (trace two_stream_world) = 1%nat).
Proof.
  assert (H : exchanges (trace two_stream_world) = 2%nat) by (vm_compute; reflexivity).
  split; [exact H|]. rewrite H. discriminate.
Qed.

(** C4, amended. Every start of one pipeline ([_record], called once per
    descriptor) makes the OpenPipeWireRemote call exactly once; the
    callback that is given [N] descriptors makes it [N] times. *)
Theorem one_exchange_per_pipeline :
  (forall node_id w, exchanges (emitted (_record node_id) w) = 1%nat)
  /\ (forall l w,
        exchanges (emitted (get_streams_callback (VStreams l)) w) = length l).
Proof.
  split.
  - intros node_id w. erewrite emitted_run; [|apply _record_run|reflexivity].
    reflexivity.
  - intros l w. destruct (record_streams l w) as (w' & evs & Hrun & Ht & _ & Hx & _).
    erewrite emitted_run; [|exact Hrun|exact Ht]. exact Hx.
Qed.
(** ** Expiry of the drain timer *)

(** The interrupt, and no end-of-stream message after it. On a recorder
    with a pipeline and no timer, [softexit] prints, sends the
    end-of-stream event to the pipeline and, through [delayed_terminate],
    creates and starts the timer; when that timer expires, the function
    it was given does what [terminate] does: the pipeline is set to NULL,
    the run loop is quit and the timer is cancelled. The timer is then
    finished, so a second expiry does nothing; and a second interrupt
    before the expiry sends the event again and makes no second timer. *)
Lemma interrupt_then_expiry_terminates (w : World) (p : Pipeline) :
  _pipeline (pwr w) = Some p ->
  _delayed_terminate (pwr w) = None ->
  let n := objects w in
  let id := pipeline_id p in
  let w' := run [SIGINT; TimerExpired] w in
  trace w'
    = trace w ++ [Print "Caught SIGINT, trying to exit gracefully.";
                  PipelineSendEOS id;
                  TimerCreate n default_delay; TimerStart n;
                  SetState id GST_NULL; LoopQuit; TimerCancel n]
  /\ _pipeline (pwr w') = Some (mkPipeline id (elements p) GST_NULL)
  /\ _delayed_terminate (pwr w') = Some (mkTimer n default_delay true true)
  /\ step TimerExpired w' = w'
  /\ trace (run [SIGINT; SIGINT; TimerExpired] w)
    = trace w ++ [Print "Caught SIGINT, trying to exit gracefully.";
                  PipelineSendEOS id;
                  TimerCreate n default_delay; TimerStart n;
                  Print "Caught SIGINT, trying to exit gracefully.";
                  PipelineSendEOS id;
                  SetState id GST_NULL; LoopQuit; TimerCancel n].
Proof.
  intros Hp Ht n id w'.
  set (w1 := step SIGINT w).
  assert (E1 : w1 =
    {| pwr := set_delayed_terminate (Some (mkTimer n default_delay true false)) (pwr w);
       default_options := default_options w;
       receivers := receivers w;
       remote_fd := remote_fd w;
       objects := S n;
       trace := trace w ++ [Print "Caught SIGINT, trying to exit gracefully.";
                            PipelineSendEOS id;
                            TimerCreate n default_delay; TimerStart n] |}).
  { subst w1. cbn [step]. unfold exec. rewrite (softexit_pipeline _ _ Hp).
    rewrite delayed_terminate_new by exact Ht.
    unfold log. cbn [fst trace pwr default_options receivers remote_fd objects].
    rewrite <- !app_assoc. reflexivity. }
  assert (Hp1 : _pipeline (pwr w1) = Some p) by (rewrite E1; exact Hp).
  assert (Ht1 : _delayed_terminate (pwr w1) = Some (mkTimer n default_delay true false))
    by (rewrite E1; reflexivity).
  assert (R1 : w' = step TimerExpired w1) by reflexivity.
  assert (R2 : run [SIGINT; SIGINT; TimerExpired] w
               = step TimerExpired (step SIGINT w1)) by reflexivity.
  rewrite R2. clearbody w1 w'. subst w'. clear R2.
  assert (E2 : step TimerExpired w1 = exec terminate w1).
  { cbn [step]. rewrite Ht1. reflexivity. }
  rewrite E2, exec_terminate.
  cbn [trace pwr terminated _pipeline _delayed_terminate step].
  rewrite Hp1, Ht1. cbn [timer_id interval started finished negb andb].
  unfold terminate_calls. rewrite Hp1, Ht1. cbn [timer_id].
  split; [|split; [reflexivity|split; [reflexivity|split; [reflexivity|]]]].
  - rewrite E1. cbn [trace]. rewrite <- app_assoc. reflexivity.
  - assert (E3 : exec softexit w1
                 = log (PipelineSendEOS id)
                     (log (Print "Caught SIGINT, trying to exit gracefully.") w1)).
    { unfold exec. rewrite (softexit_pipeline _ _ Hp1).
      erewrite delayed_terminate_armed by (cbn [log pwr]; exact Ht1). reflexivity. }
    rewrite E3. unfold log. cbn [pwr]. rewrite Ht1.
    cbn [started finished negb andb]. rewrite exec_terminate.
    cbn [trace]. unfold terminate_calls. cbn [pwr]. rewrite Hp1, Ht1, E1.
    cbn [trace timer_id]. rewrite <- !app_assoc. reflexivity.
Qed.

Lemma interrupt_then_expiry_terminates_witness :
  count is_release (trace (run [SIGINT; TimerExpired] sample_world)) = 1%nat
  /\ count is_quit (trace (run [SIGINT; TimerExpired] sample_world)) = 1%nat.
Proof.
  rewrite (proj1 (interrupt_then_expiry_terminates sample_world
             (mkPipeline 0 (launch 7 42 "18" "10000" "/home/u/out.mkv") GST_PLAYING)
             ltac:(vm_compute; reflexivity) ltac:(vm_compute; reflexivity))).
  split; vm_compute; reflexivity.
Defined.

(** Once [terminate] has run, the expiry of the timer does nothing: the
    end-of-stream message that arrives first cancels the timer. *)
Lemma timer_expiry_after_terminate (w : World) :
  step TimerExpired (exec terminate w) = exec terminate w.
Proof.
  rewrite exec_terminate. cbn [step pwr terminated _delayed_terminate].
  destruct (_delayed_terminate (pwr w)) as [t|]; [|reflexivity].
  cbn [finished negb]. rewrite andb_false_r. reflexivity.
Qed.

(** In every world the main loop reaches, the pipeline the recorder holds
    was built from the description of [_record]: the element named [sink]
    exists and is the muxer. *)
Lemma sink_is_the_muxer
    (crf maxrate location unique_name : string) (fds : nat -> Z)
    (inputs : list Input) (p : Pipeline) :
  _pipeline (pwr (run inputs (main crf maxrate location unique_name fds))) = Some p ->
  get_by_name p "sink" = Some muxer.
Proof.
  intros Hp.
  destruct (inv_pipeline _ (Inv_run inputs _ (Inv_main crf maxrate location unique_name fds))
              p Hp) as (fd & node_id & Hels).
  apply (get_by_name_sink _ _ _ _ _ _ Hels).
Qed.

Lemma sink_is_the_muxer_witness :
  get_by_name (mkPipeline 0 (launch 7 42 "18" "10000" "/home/u/out.mkv") GST_PLAYING)
    "sink" = Some muxer.
Proof.
  apply (sink_is_the_muxer "18" "10000" "/home/u/out.mkv" ":1.42"
           (λ n, 7 + Z.of_nat n)
           [Response "/org/freedesktop/portal/desktop/request/1_42/u1" 0
              {[ "session_handle" := VStr "/s/1" ]};
            Response "/org/freedesktop/portal/desktop/request/1_42/u2" 0 ∅;
            Response "/org/freedesktop/portal/desktop/request/1_42/u3" 0
              {[ "streams" := VStreams [(42, ∅)] ]}]).
  vm_compute. reflexivity.
Defined.

(** C7. Every allocation returns the token of the counter plus one and
    stores that value. In every world the main loop reaches, the tokens
    the portal calls carried are, in order, those of 1, 2, ... up to the
    counter: a later call carries a larger number, no token is carried
    twice, and no two receivers listen on the same request path. *)
Theorem request_tokens_strictly_increase
    (crf maxrate location unique_name : string) (fds : nat -> Z)
    (inputs : list Input) :
  let w := run inputs (main crf maxrate location unique_name fds) in
  (forall w0,
     result _new_request_path w0
       = Return (request_path_of (_sender_name (dpm w0))
                   (token_of (_request_token_counter (dpm w0) + 1)),
                 token_of (_request_token_counter (dpm w0) + 1))
     /\ _request_token_counter (dpm (exec _new_request_path w0))
        = _request_token_counter (dpm w0) + 1)
  /\ request_tokens (trace w) = nth_token <$> seqZ 1 (_request_token_counter (dpm w))
  /\ (forall (i j : nat) (a b : Z),
        (i < j)%nat ->
        request_tokens (trace w) !! i = Some (nth_token a) ->
        request_tokens (trace w) !! j = Some (nth_token b) ->
        a < b)
  /\ NoDup (request_tokens (trace w))
  /\ NoDup (receivers w).*1.
Proof.
  intros w.
  assert (HI : Inv w) by apply Inv_run, Inv_main.
  destruct HI as [_ _ Htok Hrcv _ _].
  split; [intros w0; split; reflexivity|].
  split; [exact Htok|]. split; [|split].
  - intros i j a b Hij Hi Hj. rewrite Htok in Hi, Hj.
    rewrite list_lookup_fmap in Hi, Hj.
    destruct (seqZ 1 (_request_token_counter (dpm w)) !! i) as [a'|] eqn:Ha;
      [|discriminate].
    destruct (seqZ 1 (_request_token_counter (dpm w)) !! j) as [b'|] eqn:Hb;
      [|discriminate].
    cbn [fmap option_fmap option_map] in Hi, Hj.
    apply (inj Some), nth_token_inj in Hi. apply (inj Some), nth_token_inj in Hj.
    subst a' b'.
    apply lookup_seqZ in Ha as [-> _]. apply lookup_seqZ in Hb as [-> _]. lia.
  - rewrite Htok. apply NoDup_fmap_2; [apply nth_token_inj|apply NoDup_seqZ].
  - rewrite Hrcv. apply NoDup_fmap_2; [apply request_path_of_inj|apply NoDup_seqZ].
Qed.

(** C10. In every world the main loop reaches at most one timer has been
    created. Once the field holds a timer, [delayed_terminate] changes
    nothing and makes no call, and [terminate], which cancels the timer,
    leaves it in the field; so [delayed_terminate] after [terminate] still
    starts no timer. *)
Theorem at_most_one_drain_timer
    (crf maxrate location unique_name : string) (fds : nat -> Z)
    (inputs : list Input) :
  let w := run inputs (main crf maxrate location unique_name fds) in
  (count is_timer_create (trace w) <= 1)%nat
  /\ (forall delay,
        is_Some (_delayed_terminate (pwr w)) ->
        delayed_terminate delay w = (w, Return tt))
  /\ (forall delay,
        is_Some (_delayed_terminate (pwr w)) ->
        is_Some (_delayed_terminate (pwr (exec terminate w)))
        /\ delayed_terminate delay (exec terminate w) = (exec terminate w, Return tt))
  /\ (forall delay,
        (count is_timer_create (trace (exec (delayed_terminate delay) w)) <= 1)%nat).
Proof.
  intros w.
  assert (HI : Inv w) by apply Inv_run, Inv_main.
  assert (Hle : forall w', Inv w' -> (count is_timer_create (trace w') <= 1)%nat).
  { intros w' HI'. rewrite (inv_timer _ HI').
    destruct (_delayed_terminate (pwr w')); lia. }
  split; [apply Hle, HI|]. split; [|split].
  - intros delay [t Ht]. apply (delayed_terminate_armed _ _ _ Ht).
  - intros delay [t Ht].
    assert (Ht' : _delayed_terminate (pwr (exec terminate w))
                  = Some (mkTimer (timer_id t) (interval t) (started t) true)).
    { rewrite exec_terminate. cbn [pwr terminated _delayed_terminate].
      rewrite Ht. reflexivity. }
    split; [rewrite Ht'; eauto|]. apply (delayed_terminate_armed _ _ _ Ht').
  - intros delay. apply Hle, Inv_delayed_terminate, HI.
Qed.

(** C8. A bus error message whose error is not of the resource class is
    only printed: the callback returns the world it was given with the one
    line added to the trace, so the recorder (the pipeline and its state,
    the timer field), the receivers and every call other than the print
    are as before. *)
Theorem other_error_is_only_logged (src_name : string) (err : GError) (w : World) :
  matches err ResourceError (ResourceError_member (code err)) = false ->
  _gst_message_callback (MsgError src_name err) w =
    (log (Print ("Error: " +:+ src_name +:+ " " +:+ message err)) w, Return tt)
  /\ pwr (exec (_gst_message_callback (MsgError src_name err)) w) = pwr w
  /\ emitted (_gst_message_callback (MsgError src_name err)) w =
       [Print ("Error: " +:+ src_name +:+ " " +:+ message err)].
Proof.
  intros Hm.
  assert (Hrun : _gst_message_callback (MsgError src_name err) w =
    (log (Print ("Error: " +:+ src_name +:+ " " +:+ message err)) w, Return tt)).
  { unfold _gst_message_callback. rewrite Hm. reflexivity. }
  split; [exact Hrun|]. split.
  - unfold exec. rewrite Hrun. reflexivity.
  - eapply emitted_run; [exact Hrun|reflexivity].
Qed.

Lemma other_error_is_only_logged_witness :
  emitted (_gst_message_callback
             (MsgError "x264enc0" (mkGError StreamError 1 "encode failed")))
          sample_world
  = [Print "Error: x264enc0 encode failed"].
Proof.
  apply (other_error_is_only_logged "x264enc0"
           (mkGError StreamError 1 "encode failed") sample_world).
  reflexivity.
Defined.

(** C9. With no pipeline, the interrupt handler quits the run loop and does
    nothing else: no end-of-stream event is sent and no timer is made. *)
Theorem softexit_without_pipeline_quits (w : World) :
  _pipeline (pwr w) = None ->
  softexit w = (log LoopQuit w, Return tt)
  /\ emitted softexit w = [LoopQuit]
  /\ _delayed_terminate (pwr (exec softexit w)) = _delayed_terminate (pwr w).
Proof.
  intros Hp. pose proof (softexit_no_pipeline w Hp) as Hrun.
  split; [exact Hrun|]. split.
  - eapply emitted_run; [exact Hrun|reflexivity].
  - unfold exec. rewrite Hrun. reflexivity.
Qed.

Lemma softexit_without_pipeline_quits_witness :
  emitted softexit (main "18" "10000" "/home/u/out.mkv" ":1.42" (λ _, 7))
  = [LoopQuit].
Proof.
  apply (softexit_without_pipeline_quits
           (main "18" "10000" "/home/u/out.mkv" ":1.42" (λ _, 7))).
  reflexivity.
Defined.

(** * Steps that leave the session bus alone *)

Lemma extends_refl w : extends w w.
Proof. split; try reflexivity. exists []. rewrite app_nil_r. split; [reflexivity|constructor]. Qed.

Lemma extends_trans w1 w2 w3 : extends w1 w2 -> extends w2 w3 -> extends w1 w3.
Proof.
  intros [(e1 & Ht1 & Hq1) Hr1 Hd1 Hc1 Hs1 Hcb1 Hst1]
         [(e2 & Ht2 & Hq2) Hr2 Hd2 Hc2 Hs2 Hcb2 Hst2].
  split; try congruence.
  exists (e1 ++ e2). split.
  - rewrite Ht2, Ht1, app_assoc. reflexivity.
  - apply Forall_app; split; assumption.
Qed.

(** A world whose fields of the bus are those of [w] and whose trace has
    grown by calls that are none of the bus. *)
Lemma extends_by w0 w w' (evs : list Event) :
  extends w0 w ->
  trace w' = trace w ++ evs ->
  Forall (λ e, is_bus_event e = false) evs ->
  receivers w' = receivers w ->
  default_options w' = default_options w ->
  _request_token_counter (dpm w') = _request_token_counter (dpm w) ->
  _sender_name (dpm w') = _sender_name (dpm w) ->
  _callback (dpm w') = _callback (dpm w) ->
  _session_token (dpm w') = _session_token (dpm w) ->
  extends w0 w'.
Proof.
  intros H Ht Hq ? ? ? ? ? ?. apply (extends_trans _ w); [exact H|].
  split; try assumption. exists evs. split; assumption.
Qed.

Lemma extends_emit w0 e :
  is_bus_event e = false -> preserves (extends w0) (emit e).
Proof.
  intros He w H. apply (extends_by w0 w _ [e]); try done.
  constructor; [exact He|constructor].
Qed.

Lemma extends_terminate w0 : preserves (extends w0) terminate.
Proof.
  intros w H. rewrite exec_terminate.
  apply (extends_by w0 w _ (terminate_calls w)); try done.
  unfold terminate_calls.
  destruct (_pipeline (pwr w)), (_delayed_terminate (pwr w));
    repeat constructor.
Qed.

Lemma extends_delayed_terminate w0 delay : preserves (extends w0) (delayed_terminate delay).
Proof.
  intros w H. unfold exec.
  destruct (_delayed_terminate (pwr w)) as [t|] eqn:Ht.
  - rewrite (delayed_terminate_armed _ _ _ Ht). exact H.
  - rewrite (delayed_terminate_new _ _ Ht). cbn [fst].
    apply (extends_by w0 w _ [TimerCreate (objects w) delay; TimerStart (objects w)]);
      try done.
    repeat constructor.
Qed.

Lemma extends__record w0 node_id : preserves (extends w0) (_record node_id).
Proof.
  intros w H. unfold exec. rewrite _record_run. cbn [fst].
  apply (extends_by w0 w _ (record_calls node_id w)); try done.
  unfold record_calls. repeat constructor.
Qed.

Lemma extends_set_session w0 v :
  preserves (extends w0) (modify (with_pwr (with_dpm (set_session v)))).
Proof.
  intros w H. apply (extends_by w0 w _ []); try done.
  cbn [exec modify fst trace with_pwr]. rewrite app_nil_r. reflexivity.
Qed.

(** Decomposes a computation of the recorder into its calls. *)
Ltac quiet :=
  repeat match goal with
    | |- preserves _ terminate => apply extends_terminate
    | |- preserves _ (delayed_terminate _) => apply extends_delayed_terminate
    | |- preserves _ (_record _) => apply extends__record
    | |- preserves _ (modify (with_pwr (with_dpm (set_session _)))) =>
        apply extends_set_session
    | |- preserves _ (mret _) => apply preserves_ret
    | |- preserves _ (raise _) => apply preserves_raise
    | |- preserves _ get => apply preserves_get
    | |- preserves _ (emit _) => apply extends_emit; reflexivity
    | |- preserves _ (print _) => apply extends_emit; reflexivity
    | |- preserves _ (_ ≫= _) => apply preserves_bind; [|intros ?]
    | |- preserves _ (for_each _ _) => apply preserves_for_each; intros ?
    | |- preserves _ (match ?x with _ => _ end) => destruct x
    end.

Lemma extends_get_streams_callback w0 streams :
  preserves (extends w0) (get_streams_callback streams).
Proof. unfold get_streams_callback. quiet. Qed.

Lemma extends_call_callback w0 arg : preserves (extends w0) (call_callback invoke arg).
Proof.
  unfold call_callback. quiet.
  match goal with |- preserves _ (invoke ?cb _) => destruct cb end.
  apply extends_get_streams_callback.
Qed.

Lemma extends_softexit w0 : preserves (extends w0) softexit.
Proof. unfold softexit. quiet. Qed.

Lemma extends__gst_message_callback w0 msg :
  preserves (extends w0) (_gst_message_callback msg).
Proof. unfold _gst_message_callback. quiet. Qed.

Lemma extends__process_streams w0 response results :
  preserves (extends w0) (_process_streams invoke response results).
Proof.
  unfold _process_streams, subscript. quiet; apply extends_call_callback.
Qed.

(** What a computation that leaves the bus alone does to a closed
    property. *)
Lemma closed_preserves (I : World -> Prop) {A} (m : M A) :
  closed I -> (forall w0, preserves (extends w0) m) -> preserves I m.
Proof.
  intros HI Hm w Hw. apply (HI w); [exact Hw|]. apply Hm, extends_refl.
Qed.

(** * Properties of every run *)

Lemma extends_failure w0 line :
  preserves (extends w0) (print line ≫= λ _, call_callback invoke VNone).
Proof. quiet. apply extends_call_callback. Qed.

(** A reply handler removes no receiver. *)
Lemma receivers_grow h response results w r :
  r ∈ receivers w ->
  r ∈ receivers (exec (run_handler invoke h response results) w).
Proof.
  intros Hr. destruct h; cbn [run_handler].
  - rewrite (ext_receivers w _
      (extends__process_streams w response results w (extends_refl w))).
    exact Hr.
  - unfold _start_portal. destruct (bool_decide (response ≠ 0)).
    + rewrite (ext_receivers w _ (extends_failure w _ w (extends_refl w))).
      exact Hr.
    + unfold exec. mstep. rewrite _dbus_screencast_run. cbn [fst receivers].
      apply elem_of_app. left. exact Hr.
  - unfold _select_sources, subscript. destruct (bool_decide (response ≠ 0)).
    + rewrite (ext_receivers w _ (extends_failure w _ w (extends_refl w))).
      exact Hr.
    + unfold exec. destruct (results !! "session_handle") as [v|].
      * mstep. mstep. mstep. rewrite _dbus_screencast_run. cbn [fst receivers].
        apply elem_of_app. left. exact Hr.
      * mstep. exact Hr.
Qed.

Section Reachability.

(** A closed property that the two calls the reply handlers make keep,
    each where the handler that makes it is a receiver. *)
Variable I : World -> Prop.
Hypothesis I_closed : closed I.
Hypothesis I_select_sources :
  forall w p v,
    I w -> (p, H_select_sources) ∈ receivers w ->
    I (exec (_dbus_screencast SelectSources H_start_portal [v]
               (Some select_options)) w).
Hypothesis I_start :
  forall w p,
    I w -> (p, H_start_portal) ∈ receivers w ->
    I (exec (_dbus_screencast Start H_process_streams
               [_session (dpm w); VStr ""] None) w).

Lemma invariant_run_handler h response results w p :
  I w -> (p, h) ∈ receivers w -> I (exec (run_handler invoke h response results) w).
Proof.
  intros Hw Hin. destruct h; cbn [run_handler].
  - apply (closed_preserves I); [exact I_closed| |exact Hw].
    intros w0. apply extends__process_streams.
  - unfold _start_portal. destruct (bool_decide (response ≠ 0)).
    + apply (closed_preserves I); [exact I_closed| |exact Hw].
      intros w0. apply extends_failure.
    + unfold exec. mstep. apply (I_start w p); assumption.
  - unfold _select_sources, subscript. destruct (bool_decide (response ≠ 0)).
    + apply (closed_preserves I); [exact I_closed| |exact Hw].
      intros w0. apply extends_failure.
    + unfold exec. destruct (results !! "session_handle") as [v|].
      * mstep. mstep. mstep.
        set (w1 := log _ (with_pwr _ w)).
        assert (He : extends w w1).
        { apply (extends_by w w _ [Print ("session " +:+ str v +:+ " created")]);
            try done; [apply extends_refl|repeat constructor]. }
        apply (I_select_sources w1 p).
        -- apply (I_closed w); assumption.
        -- rewrite (ext_receivers _ _ He). exact Hin.
      * mstep. exact Hw.
Qed.

Lemma invariant_step i w : I w -> I (step i w).
Proof.
  intros Hw. destruct i as [path response results|msg| |]; cbn [step].
  - unfold deliver.
    assert (HJ : forall l w',
               I w' -> (forall r, r ∈ l -> r ∈ receivers w') ->
               I (foldl (call_receiver path response results) w' l)).
    { induction l as [|r l IH]; intros w' Hw' Hsub; [exact Hw'|].
      cbn [foldl]. apply IH.
      - unfold call_receiver. destruct (bool_decide (r.1 = path)); [|exact Hw'].
        apply (invariant_run_handler _ _ _ _ r.1); [exact Hw'|].
        destruct r. apply Hsub. left.
      - intros r' Hr'. unfold call_receiver.
        destruct (bool_decide (r.1 = path)); [|apply Hsub; right; exact Hr'].
        apply receivers_grow, Hsub. right. exact Hr'. }
    apply HJ; [exact Hw|]. intros r Hr. exact Hr.
  - destruct (_pipeline (pwr w)); [|exact Hw].
    apply (closed_preserves I); [exact I_closed| |exact Hw].
    intros w0. apply extends__gst_message_callback.
  - apply (closed_preserves I); [exact I_closed| |exact Hw].
    intros w0. apply extends_softexit.
  - destruct (_delayed_terminate (pwr w)) as [t|]; [|exact Hw].
    destruct (started t && negb (finished t)); [|exact Hw].
    apply (closed_preserves I); [exact I_closed| |exact Hw].
    intros w0. apply extends_terminate.
Qed.

Lemma invariant_run inputs w : I w -> I (run inputs w).
Proof.
  intros Hw. unfold run. apply foldl_invariant; [|exact Hw].
  intros w' i. apply invariant_step.
Qed.

End Reachability.

Lemma split_quiet {A} (t evs t1 t2 : list A) (x : A) :
  t ++ evs = t1 ++ x :: t2 -> x ∉ evs ->
  exists t2', t = t1 ++ x :: t2' /\ t2 = t2' ++ evs.
Proof.
  intros H Hx. apply app_eq_inv in H as [(k & Ht & Hk)|(k & Ht1 & He)].
  - destruct k as [|y k].
    + cbn in Hk. subst evs. exfalso. apply Hx. left.
    + injection Hk as -> ->. exists k. split; [exact Ht|reflexivity].
  - exfalso. apply Hx. rewrite He. apply elem_of_app. right. left.
Qed.

Lemma split_snoc {A} (t t1 t2 : list A) (x y : A) :
  t ++ [x] = t1 ++ y :: t2 ->
  (t1 = t /\ y = x /\ t2 = []) \/ exists t2', t = t1 ++ y :: t2' /\ t2 = t2' ++ [x].
Proof.
  intros H. apply app_eq_inv in H as [(k & Ht & Hk)|(k & Ht1 & He)].
  - destruct k as [|z k].
    + cbn in Hk. injection Hk as -> ->. left. rewrite app_nil_r in Ht. done.
    + injection Hk as -> ->. right. exists k. done.
  - destruct k as [|z k].
    + cbn in He. injection He as -> <-. left. rewrite app_nil_r in Ht1. done.
    + injection He as _ He. destruct k; discriminate He.
Qed.

Lemma quiet_no_portal_call (evs : list Event) m args opts :
  Forall (λ e, is_bus_event e = false) evs -> PortalCall m args opts ∉ evs.
Proof.
  intros Hq Hin. rewrite Forall_forall in Hq. specialize (Hq _ Hin). discriminate Hq.
Qed.

Lemma main_world crf maxrate location unique_name fds :
  let sender := sub_dots (tail_str unique_name) in
  let path := request_path_of sender (token_of 1) in
  main crf maxrate location unique_name fds =
    {| pwr :=
         {| _dpm :=
              {| _request_token_counter := 1;
                 _session_token_counter := 1;
                 _sender_name := sender;
                 _session_path := session_path_of sender (token_of 1);
                 _session_token := token_of 1;
                 _session := VNone;
                 _callback := Some Closure_get_streams_callback |};
            _pipeline := None;
            crf := crf;
            vbv_maxrate := maxrate;
            location := location;
            _delayed_terminate := None |};
       default_options := ∅;
       receivers := [(path, H_select_sources)];
       remote_fd := fds;
       objects := 0;
       trace :=
         [AddSignalReceiver H_select_sources "Response" REQUEST_IFACE DESKTOP_IFACE path;
          PortalCall CreateSession []
            (<["handle_token" := VStr (token_of 1)]>
               {[ "session_handle_token" := VStr (token_of 1) ]})] |}.
Proof.
  cbn zeta. unfold main, record, get_streams. unfold exec at 1.
  mstep. mstep. rewrite _dbus_screencast_run. reflexivity.
Qed.

(** ** The listener is registered before the call *)

Lemma listeners_first_closed : closed listeners_first.
Proof.
  intros w w' HI [(evs & Ht & Hq) Hr _ _ Hs _ _] t1 t2 m args opts Hsplit.
  rewrite Ht in Hsplit.
  apply split_quiet in Hsplit as (t2' & Hw & _);
    [|apply quiet_no_portal_call, Hq].
  destruct (HI _ _ _ _ _ Hw) as (h & k & Hl & Ho & Hin).
  exists h, k. rewrite Hs, Hr. done.
Qed.

Lemma listeners_first__dbus_screencast method callback args options w :
  listeners_first w ->
  listeners_first (exec (_dbus_screencast method callback args options) w).
Proof.
  intros HI t1 t2 m a o Hsplit. unfold exec in *.
  rewrite _dbus_screencast_run in *.
  cbn [fst trace receivers pwr dpm with_dpm set_request_token_counter _dpm _sender_name]
    in *.
  change (?t ++ [?x; ?y]) with (t ++ [x] ++ [y]) in Hsplit.
  rewrite app_assoc in Hsplit.
  apply split_snoc in Hsplit as [(-> & [= -> -> ->] & ->)|(t2' & Hw & _)].
  - exists callback, (_request_token_counter (dpm w) + 1). split; [|split].
    + rewrite last_snoc. reflexivity.
    + unfold sent_options. apply lookup_insert_eq.
    + apply elem_of_app. right. left.
  - apply split_snoc in Hw as [(_ & [=] & _)|(t2'' & Hw & _)].
    destruct (HI _ _ _ _ _ Hw) as (h & k & Hl & Ho & Hin).
    exists h, k. split; [exact Hl|]. split; [exact Ho|].
    apply elem_of_app. left. exact Hin.
Qed.

(** In every world the main loop reaches, each portal call comes right
    after the registration of a receiver on the request path of the token
    the call carries, and that receiver is still registered. *)
Theorem listener_registered_before_call
    (crf maxrate location unique_name : string) (fds : nat -> Z)
    (inputs : list Input) :
  listeners_first (run inputs (main crf maxrate location unique_name fds)).
Proof.
  apply invariant_run.
  - apply listeners_first_closed.
  - intros w p v Hw _. apply listeners_first__dbus_screencast, Hw.
  - intros w p Hw _. apply listeners_first__dbus_screencast, Hw.
  - rewrite main_world. intros t1 t2 m args opts Hsplit. cbn [trace] in Hsplit.
    change [?x; ?y] with ([x] ++ [y]) in Hsplit.
    apply split_snoc in Hsplit as [(-> & [= -> -> ->] & ->)|(t2' & Hw & _)].
    + exists H_select_sources, 1. split; [reflexivity|]. split.
      * apply lookup_insert_eq.
      * left.
    + destruct t1 as [|? [|? ?]]; discriminate Hw.
Qed.

Lemma listener_registered_before_call_witness :
  let w := main "18" "10000" "/home/u/out.mkv" ":1.42" (λ _, 7) in
  exists h k,
    last [AddSignalReceiver H_select_sources "Response" REQUEST_IFACE DESKTOP_IFACE
            "/org/freedesktop/portal/desktop/request/1_42/u1"]
    = Some (AddSignalReceiver h "Response" REQUEST_IFACE DESKTOP_IFACE
              (request_path_of (_sender_name (dpm w)) (token_of k)))
    /\ (<["handle_token" := VStr "u1"]>
          ({[ "session_handle_token" := VStr "u1" ]} : gmap string Value))
         !! "handle_token" = Some (VStr (token_of k))
    /\ (request_path_of (_sender_name (dpm w)) (token_of k), h) ∈ receivers w.
Proof.
  cbn zeta.
  apply (listener_registered_before_call "18" "10000" "/home/u/out.mkv" ":1.42"
           (λ _, 7) []
           [AddSignalReceiver H_select_sources "Response" REQUEST_IFACE DESKTOP_IFACE
              "/org/freedesktop/portal/desktop/request/1_42/u1"]
           [] CreateSession []).
  vm_compute. reflexivity.
Defined.

(** ** The order of the steps *)

Lemma methods_app (t1 t2 : list Event) : methods (t1 ++ t2) = methods t1 ++ methods t2.
Proof. apply omap_app. Qed.

Lemma methods_quiet (evs : list Event) :
  Forall (λ e, is_bus_event e = false) evs -> methods evs = [].
Proof.
  induction 1 as [|e evs He _ IH]; [reflexivity|].
  unfold methods in *. cbn [omap list_omap]. destruct e; try discriminate He; exact IH.
Qed.

Lemma steps_in_order_closed : closed steps_in_order.
Proof.
  intros w w' [Hf Hs Hr] [(evs & Ht & Hq) Hrcv _ _ _ _ _].
  assert (Hm : methods (trace w') = methods (trace w)).
  { rewrite Ht, methods_app, (methods_quiet _ Hq), app_nil_r. reflexivity. }
  split; rewrite ?Hm, ?Hrcv; assumption.
Qed.

(** A call of [method], made where the method before it in the protocol
    was called, keeps the order. *)
Lemma steps_in_order_call method callback args options w :
  steps_in_order w ->
  method ≠ CreateSession ->
  (method = Start -> SelectSources ∈ methods (trace w)) ->
  awaited callback = method ->
  steps_in_order (exec (_dbus_screencast method callback args options) w).
Proof.
  intros [(rest & Hf & Hn) Hs Hr] Hm Hpre Haw. unfold exec.
  rewrite _dbus_screencast_run. cbn [fst trace receivers].
  assert (Hms : methods (trace w ++
                  [AddSignalReceiver callback "Response" REQUEST_IFACE DESKTOP_IFACE
                     (request_path_of (_sender_name (dpm w))
                        (token_of (_request_token_counter (dpm w) + 1)));
                   PortalCall method args
                     (sent_options options
                        (token_of (_request_token_counter (dpm w) + 1)) w)])
                = methods (trace w) ++ [method]).
  { rewrite methods_app. reflexivity. }
  split; cbn [trace receivers]; rewrite Hms.
  - exists (rest ++ [method]). rewrite Hf. split; [reflexivity|].
    intros Hin. apply elem_of_app in Hin as [Hin|Hin]; [exact (Hn Hin)|].
    apply list_elem_of_singleton in Hin. congruence.
  - intros ms1 ms2 Hsplit.
    apply split_snoc in Hsplit as [(-> & <- & _)|(ms2' & Hw & _)].
    + apply Hpre. reflexivity.
    + apply (Hs _ _ Hw).
  - intros p h Hin. apply elem_of_app. apply elem_of_app in Hin as [Hin|Hin].
    + left. apply (Hr _ _ Hin).
    + right. apply list_elem_of_singleton in Hin. injection Hin as _ ->.
      rewrite Haw. left.
Qed.

(** In every world the main loop reaches: the first portal call is
    CreateSession and there is no other; a Start call comes after a
    SelectSources call; and each receiver waits for a call that was
    made. *)
Theorem handshake_steps_in_order
    (crf maxrate location unique_name : string) (fds : nat -> Z)
    (inputs : list Input) :
  steps_in_order (run inputs (main crf maxrate location unique_name fds)).
Proof.
  apply invariant_run.
  - apply steps_in_order_closed.
  - intros w p v Hw _. apply steps_in_order_call; try done.
  - intros w p Hw Hin. apply steps_in_order_call; try done.
    intros _. apply (order_receivers _ Hw _ _ Hin).
  - rewrite main_world. split; cbn [trace receivers].
    + exists []. split; [reflexivity|]. apply not_elem_of_nil.
    + intros ms1 ms2 Hsplit. destruct ms1 as [|? [|? ?]]; discriminate Hsplit.
    + intros p h Hin. apply list_elem_of_singleton in Hin. injection Hin as _ ->. left.
Qed.

(** ** What each call carries *)

Lemma calls_well_formed_closed : closed calls_well_formed.
Proof.
  intros w w' [Hf Hst Hd] [(evs & Ht & Hq) _ Hdo _ _ _ Hst'].
  split.
  - rewrite Ht. apply Forall_app. split; [exact Hf|].
    eapply Forall_impl; [exact Hq|]. intros e He. destruct e; try exact I.
    discriminate He.
  - rewrite Hst'. exact Hst.
  - rewrite Hdo. exact Hd.
Qed.

Lemma only_handle_token (m : gmap string Value) (t : string) :
  (forall k, k ≠ "handle_token" -> m !! k = None) ->
  <["handle_token" := VStr t]> m = {[ "handle_token" := VStr t ]}.
Proof.
  intros Hm. apply map_eq. intros k.
  destruct (decide (k = "handle_token")) as [->|Hk].
  - rewrite lookup_insert_eq, lookup_singleton_eq. reflexivity.
  - rewrite lookup_insert_ne, lookup_singleton_ne by congruence. apply Hm, Hk.
Qed.

Lemma calls_well_formed_call method callback args options w :
  calls_well_formed w ->
  (forall t, well_formed_call "u1"
               (PortalCall method args (sent_options options t w))) ->
  calls_well_formed (exec (_dbus_screencast method callback args options) w).
Proof.
  intros [Hf Hst Hd] Hcall. unfold exec. rewrite _dbus_screencast_run.
  cbn [fst]. split; cbn [trace default_options pwr dpm with_dpm _dpm
                          set_request_token_counter _session_token].
  - apply Forall_app. split; [exact Hf|]. repeat constructor. apply Hcall.
  - exact Hst.
  - destruct options; [exact Hd|]. intros k Hk. unfold sent_options. cbn [default].
    rewrite lookup_insert_ne by congruence. apply Hd, Hk.
Qed.

(** In every world the main loop reaches, every portal call made so far
    has the arguments and options of its method: CreateSession no argument
    and the session token u1; SelectSources one argument, no multiple
    selection and the source types 1|2; Start two arguments, the second
    the empty parent window, and, though its options are the dictionary
    all calls without options share, nothing in them but its own request
    token. *)
Theorem portal_calls_well_formed
    (crf maxrate location unique_name : string) (fds : nat -> Z)
    (inputs : list Input) :
  calls_well_formed (run inputs (main crf maxrate location unique_name fds)).
Proof.
  apply invariant_run.
  - apply calls_well_formed_closed.
  - intros w p v Hw _. apply calls_well_formed_call; [exact Hw|].
    intros t. split; [eauto|]. exists t. reflexivity.
  - intros w p Hw _. apply calls_well_formed_call; [exact Hw|].
    intros t. split; [eauto|]. exists t.
    apply only_handle_token, (calls_default _ Hw).
  - rewrite main_world. split; cbn [trace default_options pwr dpm _dpm _session_token].
    + repeat constructor. exists (token_of 1). reflexivity.
    + reflexivity.
    + intros k _. apply lookup_empty.
Qed.

(** ** Replies that lack a key *)

(** A reply to CreateSession with response 0 and no [session_handle]: the
    lookup raises before anything is done; the world is unchanged. A reply
    to Start with response 0 and no [streams]: the line is printed, the
    lookup raises, and the continuation is not called; on the main loop
    nothing else follows, neither a pipeline nor a quit of the run loop. *)
Theorem reply_without_key (results : gmap string Value) (w : World) :
  (results !! "session_handle" = None ->
   _select_sources invoke 0 results w = (w, Raise (KeyError "session_handle")))
  /\ (results !! "streams" = None ->
      _process_streams invoke 0 results w
        = (log (Print "Sources selected") w, Raise (KeyError "streams")))
  /\ (forall crf maxrate location unique_name fds inputs path,
        let w0 := run inputs (main crf maxrate location unique_name fds) in
        results !! "streams" = None ->
        (path, H_process_streams) ∈ receivers w0 ->
        step (Response path 0 results) w0 = log (Print "Sources selected") w0).
Proof.
  assert (H0 : bool_decide (0 ≠ 0) = false)
    by (apply bool_decide_eq_false_2; intros H; apply H; reflexivity).
  split; [|split].
  - intros Hk. unfold _select_sources, subscript. rewrite H0, Hk. reflexivity.
  - intros Hk. unfold _process_streams, subscript. rewrite H0, Hk. reflexivity.
  - intros crf maxrate location unique_name fds inputs path w0 Hk Hin.
    assert (HI : Inv w0) by apply Inv_run, Inv_main.
    assert (Hnd : NoDup (receivers w0).*1).
    { rewrite (inv_receivers _ HI).
      apply NoDup_fmap_2; [apply request_path_of_inj|apply NoDup_seqZ]. }
    cbn [step]. rewrite (deliver_registered _ _ _ _ _ Hnd Hin).
    cbn [run_handler]. unfold exec, _process_streams, subscript.
    rewrite H0, Hk. reflexivity.
Qed.

Lemma reply_without_key_witness :
  let w := run [Response "/org/freedesktop/portal/desktop/request/1_42/u1" 0
                  {[ "session_handle" := VStr "/s/1" ]};
                Response "/org/freedesktop/portal/desktop/request/1_42/u2" 0 ∅]
               (main "18" "10000" "/home/u/out.mkv" ":1.42" (λ _, 7)) in
  step (Response "/org/freedesktop/portal/desktop/request/1_42/u3" 0 ∅) w
  = log (Print "Sources selected") w.
Proof.
  cbn zeta.
  refine (proj2 (proj2 (reply_without_key ∅
            (main "18" "10000" "/home/u/out.mkv" ":1.42" (λ _, 7))))
          "18" "10000" "/home/u/out.mkv" ":1.42" (λ _, 7)
          [Response "/org/freedesktop/portal/desktop/request/1_42/u1" 0
             {[ "session_handle" := VStr "/s/1" ]};
           Response "/org/freedesktop/portal/desktop/request/1_42/u2" 0 ∅]
          "/org/freedesktop/portal/desktop/request/1_42/u3" _ _).
  - reflexivity.
  - apply list_elem_of_lookup_2 with 2%nat. vm_compute. reflexivity.
Defined.


(** ** The sender name *)

Lemma sub_dots_no_dot s : occurs "."%char (sub_dots s) = false.
Proof.
  induction s as [|c s IH]; [reflexivity|]. cbn [sub_dots occurs].
  rewrite IH, orb_false_r. destruct (Ascii.eqb c ".") eqn:Hc; [reflexivity|exact Hc].
Qed.

Lemma sub_dots_length s : String.length (sub_dots s) = String.length s.
Proof. induction s as [|c s IH]; [reflexivity|]. cbn [sub_dots String.length]. rewrite IH. reflexivity. Qed.

Lemma sub_dots_fixed s : occurs "."%char s = false -> sub_dots s = s.
Proof.
  induction s as [|c s IH]; [reflexivity|]. cbn [sub_dots occurs]. intros H.
  apply orb_false_iff in H as [Hc Hs]. rewrite Hc, (IH Hs). reflexivity.
Qed.

Lemma sender_is_closed name : closed (sender_is name).
Proof. intros w w' H He. unfold sender_is. rewrite (ext_sender _ _ He). exact H. Qed.

Lemma sender_is__dbus_screencast name method callback args options w :
  sender_is name w ->
  sender_is name (exec (_dbus_screencast method callback args options) w).
Proof. intros H. unfold exec. rewrite _dbus_screencast_run. exact H. Qed.

(** The sender name is the unique name of the connection without its
    first character and with every dot replaced by an underscore: it has
    no dot, it is as long as what it was made from, a name without dots is
    kept, and no step of a run changes it. *)
Theorem sender_name_has_no_dot
    (crf maxrate location unique_name : string) (fds : nat -> Z)
    (inputs : list Input) :
  let name := _sender_name (dpm (run inputs (main crf maxrate location unique_name fds))) in
  name = sub_dots (tail_str unique_name)
  /\ occurs "."%char name = false
  /\ String.length name = String.length (tail_str unique_name)
  /\ (occurs "."%char (tail_str unique_name) = false -> name = tail_str unique_name).
Proof.
  intros name.
  assert (Hn : name = sub_dots (tail_str unique_name)).
  { subst name.
    apply (invariant_run (sender_is (sub_dots (tail_str unique_name)))).
    - apply sender_is_closed.
    - intros w p v Hw _. apply sender_is__dbus_screencast, Hw.
    - intros w p Hw _. apply sender_is__dbus_screencast, Hw.
    - rewrite main_world. reflexivity. }
  rewrite Hn. split; [reflexivity|]. split; [apply sub_dots_no_dot|].
  split; [apply sub_dots_length|apply sub_dots_fixed].
Qed.

(** ** Several streams *)




(** * A handshake that succeeds *)

Lemma _select_sources_ok (results : gmap string Value) (h : Value) w :
  results !! "session_handle" = Some h ->
  _select_sources invoke 0 results w =
    _dbus_screencast SelectSources H_start_portal [h] (Some select_options)
      (log (Print ("session " +:+ str h +:+ " created"))
         (with_pwr (with_dpm (set_session h)) w)).
Proof.
  intros Hk. unfold _select_sources, subscript.
  rewrite bool_decide_eq_false_2 by (intros H; apply H; reflexivity).
  rewrite Hk. mstep. mstep. mstep. reflexivity.
Qed.

Lemma _start_portal_ok (results : gmap string Value) w :
  _start_portal invoke 0 results w =
    _dbus_screencast Start H_process_streams [_session (dpm w); VStr ""] None w.
Proof.
  unfold _start_portal.
  rewrite bool_decide_eq_false_2 by (intros H; apply H; reflexivity).
  mstep. reflexivity.
Qed.

Lemma _process_streams_ok (results : gmap string Value) (streams : Value) w :
  results !! "streams" = Some streams ->
  _callback (dpm w) = Some Closure_get_streams_callback ->
  _process_streams invoke 0 results w =
    get_streams_callback streams (log (Print "Sources selected") w).
Proof.
  intros Hk Hcb. unfold _process_streams, subscript, call_callback.
  rewrite bool_decide_eq_false_2 by (intros H; apply H; reflexivity).
  mstep. rewrite Hk. mstep. mstep.
  unfold dpm in *. cbn [log pwr]. rewrite Hcb. reflexivity.
Qed.

(** The events of the streams callback are none that [f] counts, when [f]
    counts neither a print nor a call of [_record]. *)
Lemma count_in_streams (f : Event -> bool) (l : list StreamDescriptor) (n : nat) :
  (forall line, f (Print line) = false) ->
  (forall node_id w, count f (record_calls node_id w) = 0%nat) ->
  preserves (λ w, count f (trace w) = n) (get_streams_callback (VStreams l)).
Proof.
  intros Hp Hr. unfold get_streams_callback. apply preserves_for_each.
  intros [node_id props]. apply preserves_bind; [|intros _].
  - intros w H. cbn [exec print emit modify fst log trace]. rewrite count_app, H.
    unfold count. cbn [List.filter]. rewrite Hp. cbn. lia.
  - intros w H. unfold exec. rewrite _record_run. cbn [fst trace].
    rewrite count_app, H, Hr. lia.
Qed.

(** The session every exchange of the streams callback names is the one
    the negotiator holds. *)
Lemma session_in_streams (h : Value) (l : list StreamDescriptor) :
  preserves (λ w, _session (dpm w) = h
                  /\ forall v, OpenPipeWireRemote v ∈ trace w -> v = h)
    (get_streams_callback (VStreams l)).
Proof.
  unfold get_streams_callback. apply preserves_for_each.
  intros [node_id props]. apply preserves_bind; [|intros _].
  - intros w [Hs Ht]. split; [exact Hs|]. intros v Hin.
    cbn [exec print emit modify fst log trace] in Hin.
    apply elem_of_app in Hin as [Hin|Hin]; [apply Ht, Hin|].
    apply list_elem_of_singleton in Hin. discriminate Hin.
  - intros w [Hs Ht]. unfold exec. rewrite _record_run. cbn [fst trace].
    split; [exact Hs|]. intros v Hin.
    apply elem_of_app in Hin as [Hin|Hin]; [apply Ht, Hin|].
    unfold record_calls in Hin. rewrite Hs in Hin.
    apply elem_of_cons in Hin as [Hin|Hin]; [congruence|].
    repeat (apply elem_of_cons in Hin as [Hin|Hin]; [discriminate Hin|]).
    inversion Hin.
Qed.

(** Gives the fields of a world reached by a call its value. *)
Ltac explicit H :=
  unfold with_pwr, with_dpm, set_session, set_request_token_counter, sent_options,
    log, dpm in H;
  cbn [fst pwr _dpm _request_token_counter _session_token_counter _sender_name
       _session_path _session_token _session _callback _pipeline crf
       vbv_maxrate location _delayed_terminate default_options receivers
       remote_fd objects trace app default from_option] in H.

(** A handshake in which the portal answers each of the three requests
    with response 0, the session handle [h] and the streams [l]: the three
    methods are called once each, in order; one pipeline is built per
    descriptor; every exchange names the session [h]; the run loop is not
    quit and no pipeline is set to NULL; the three receivers are still
    registered; and the [i]-th pipeline is the chain of [_record] whose
    source element has for [fd] the [i]-th descriptor the portal hands
    out and for [path] the node id of the [i]-th stream, and whose encoder
    and file sink have the [crf], [maxrate] and [location] given to
    [main]. *)
Theorem handshake_success
    (crf maxrate location unique_name : string) (fds : nat -> Z)
    (h : Value) (l : list StreamDescriptor) (r1 r2 r3 : gmap string Value) :
  r1 !! "session_handle" = Some h ->
  r3 !! "streams" = Some (VStreams l) ->
  let sender := sub_dots (tail_str unique_name) in
  let path k := request_path_of sender (token_of k) in
  let w := run [Response (path 1) 0 r1; Response (path 2) 0 r2;
                Response (path 3) 0 r3]
               (main crf maxrate location unique_name fds) in
  methods (trace w) = [CreateSession; SelectSources; Start]
  /\ launches (trace w)
     = imap (λ i sd, (i, launch (fds i) sd.1 crf maxrate location)) l
  /\ (forall v, OpenPipeWireRemote v ∈ trace w -> v = h)
  /\ count is_quit (trace w) = 0%nat
  /\ count is_release (trace w) = 0%nat
  /\ receivers w = [(path 1, H_select_sources); (path 2, H_start_portal);
                    (path 3, H_process_streams)]
  /\ (forall i sd, l !! i = Some sd ->
        exists els,
          launches (trace w) !! i = Some (i, els)
          /\ records_stream (fds i) sd.1 crf maxrate location els).
Proof.
  intros H1 H3 sender path w.
  set (w0 := main crf maxrate location unique_name fds) in *.
  set (w1 := step (Response (path 1) 0 r1) w0).
  set (w2 := step (Response (path 2) 0 r2) w1).
  assert (Hw : w = step (Response (path 3) 0 r3) w2) by reflexivity.
  assert (Hnd : forall inputs, NoDup (receivers (run inputs w0)).*1).
  { intros inputs. subst w0.
    rewrite (inv_receivers _ (Inv_run inputs _ (Inv_main crf maxrate location unique_name fds))).
    apply NoDup_fmap_2; [apply request_path_of_inj|apply NoDup_seqZ]. }
  pose proof (main_world crf maxrate location unique_name fds) as E0.
  cbn zeta in E0. fold w0 sender in E0. fold (path 1) in E0.
  assert (E1 : w1 = exec (_select_sources invoke 0 r1) w0).
  { subst w1. cbn [step]. apply (deliver_registered _ H_select_sources).
    - apply (Hnd []).
    - rewrite E0. left. }
  unfold exec in E1. rewrite (_select_sources_ok _ _ _ H1), _dbus_screencast_run in E1.
  rewrite E0 in E1. explicit E1. change (1 + 1) with 2 in E1. fold (path 2) in E1.
  assert (E2 : w2 = exec (_start_portal invoke 0 r2) w1).
  { subst w2. cbn [step]. apply (deliver_registered _ H_start_portal).
    - apply (Hnd [Response (path 1) 0 r1]).
    - rewrite E1. right. left. }
  unfold exec in E2. rewrite _start_portal_ok, _dbus_screencast_run in E2.
  rewrite E1 in E2. explicit E2. change (2 + 1) with 3 in E2. fold (path 3) in E2.
  assert (E3 : w = exec (_process_streams invoke 0 r3) w2).
  { rewrite Hw. cbn [step]. apply (deliver_registered _ H_process_streams).
    - apply (Hnd [Response (path 1) 0 r1; Response (path 2) 0 r2]).
    - rewrite E2. right. right. left. }
  unfold exec in E3. rewrite (_process_streams_ok _ _ _ H3) in E3 by (rewrite E2; reflexivity).
  clearbody w w2. clear Hw Hnd E0 E1 w1 w0.
  set (w2' := log (Print "Sources selected") w2) in E3.
  assert (T2 : trace w2' = trace w2 ++ [Print "Sources selected"]) by reflexivity.
  assert (Hx : extends w2' w).
  { rewrite E3. apply extends_get_streams_callback, extends_refl. }
  destruct Hx as [(evs & Ht & Hq) Hr _ _ _ _ _].
  destruct (record_streams l w2') as (w' & evs' & Hrun & Ht' & Hl & _).
  assert (Hw' : w' = w) by (rewrite E3, Hrun; reflexivity). subst w'.
  assert (Hlaunch : launches (trace w)
                    = imap (λ i sd, (i, launch (fds i) sd.1 crf maxrate location)) l).
  { rewrite Ht', launches_app, Hl, T2, launches_app, E2.
    cbn [trace launches omap list_omap app]. apply imap_ext. intros i sd _.
    unfold nth_pipeline. rewrite T2, exchanges_app. subst w2'. rewrite E2.
    reflexivity. }
  split; [|split; [|split; [|split; [|split; [|split]]]]].
  - rewrite Ht, methods_app, (methods_quiet _ Hq), app_nil_r, T2, methods_app, E2.
    reflexivity.
  - exact Hlaunch.
  - rewrite E3. apply (session_in_streams h l w2'). subst w2'.
    split; [rewrite E2; reflexivity|].
    intros v Hin. rewrite T2, E2 in Hin. cbn [trace app] in Hin.
    repeat (apply elem_of_cons in Hin as [Hin|Hin]; [discriminate Hin|]).
    inversion Hin.
  - rewrite E3. apply (count_in_streams is_quit l 0 (λ _, eq_refl)); [reflexivity|].
    rewrite T2, E2. reflexivity.
  - rewrite E3. apply (count_in_streams is_release l 0 (λ _, eq_refl)); [reflexivity|].
    rewrite T2, E2. reflexivity.
  - rewrite Hr. subst w2'. rewrite E2. reflexivity.
  - intros i sd Hi. exists (launch (fds i) sd.1 crf maxrate location). split.
    + rewrite Hlaunch, list_lookup_imap.
      exact (f_equal (fmap (λ sd', (i, launch (fds i) sd'.1 crf maxrate location))) Hi).
    + apply launch_records_stream.
Qed.

Lemma handshake_success_witness :
  launches (trace two_stream_world)
  = [(0%nat,
      [mkElement "pipewiresrc" None [("fd", "7"); ("path", "42")];
       mkElement "videoconvert" None [];
       mkElement "queue" None [];
       mkElement "x264enc" None
         [("intra-refresh", "true"); ("quantizer", "18"); ("speed-preset", "fast");
          ("pass", "qual"); ("bitrate", "10000")];
       mkElement "h264parse" None [];
       mkElement "matroskamux" (Some "sink") [];
       mkElement "filesink" None [("location", "/home/u/out.mkv")]]);
     (1%nat,
      [mkElement "pipewiresrc" None [("fd", "8"); ("path", "43")];
       mkElement "videoconvert" None [];
       mkElement "queue" None [];
       mkElement "x264enc" None
         [("intra-refresh", "true"); ("quantizer", "18"); ("speed-preset", "fast");
          ("pass", "qual"); ("bitrate", "10000")];
       mkElement "h264parse" None [];
       mkElement "matroskamux" (Some "sink") [];
       mkElement "filesink" None [("location", "/home/u/out.mkv")]])].
Proof.
  etransitivity.
  - refine (proj1 (proj2 (handshake_success "18" "10000" "/home/u/out.mkv" ":1.42"
              (λ n, 7 + Z.of_nat n) (VStr "/s/1") [(42, ∅); (43, ∅)]
              {[ "session_handle" := VStr "/s/1" ]} ∅
              {[ "streams" := VStreams [(42, ∅); (43, ∅)] ]} _ _))).
    + vm_compute. reflexivity.
    + vm_compute. reflexivity.
  - vm_compute. reflexivity.
Defined.

(** * Receivers stay *)

Lemma receivers_deliver path response results w r :
  r ∈ receivers w -> r ∈ receivers (deliver path response results w).
Proof.
  unfold deliver. generalize (receivers w) at 2 as l. intros l. revert w.
  induction l as [|r' l IH]; intros w Hr; [exact Hr|].
  cbn [foldl]. apply IH. unfold call_receiver.
  destruct (bool_decide (r'.1 = path)); [|exact Hr].
  apply receivers_grow, Hr.
Qed.

Lemma receivers_step i w r : r ∈ receivers w -> r ∈ receivers (step i w).
Proof.
  intros Hr. destruct i as [path response results|msg| |]; cbn [step].
  - apply receivers_deliver, Hr.
  - destruct (_pipeline (pwr w)); [|exact Hr].
    rewrite (ext_receivers w _
      (extends__gst_message_callback w msg w (extends_refl w))). exact Hr.
  - rewrite (ext_receivers w _ (extends_softexit w w (extends_refl w))). exact Hr.
  - destruct (_delayed_terminate (pwr w)) as [t|]; [|exact Hr].
    destruct (started t && negb (finished t)); [|exact Hr].
    rewrite (ext_receivers w _ (extends_terminate w w (extends_refl w))). exact Hr.
Qed.

Lemma receivers_run inputs w r : r ∈ receivers w -> r ∈ receivers (run inputs w).
Proof.
  unfold run. apply (foldl_invariant (λ w', r ∈ receivers w')).
  intros w' i. apply receivers_step.
Qed.

Lemma request_tokens_length (t : list Event) :
  length (request_tokens t) = count is_portal_call t.
Proof.
  unfold request_tokens, count.
  induction t as [|e t IH]; [reflexivity|].
  cbn [omap list_omap List.filter]. destruct e; cbn [is_portal_call length]; congruence.
Qed.

(** No receiver is ever removed. In every world the main loop reaches
    there is one receiver per portal call made; a receiver registered at
    some point is registered after any further inputs, and a reply on its
    path then runs its handler, whether or not a reply on that path was
    handled before. *)
Theorem receiver_fires_on_every_reply
    (crf maxrate location unique_name : string) (fds : nat -> Z)
    (inputs more : list Input) (path : string) (h : Handler) :
  let w := run inputs (main crf maxrate location unique_name fds) in
  (path, h) ∈ receivers w ->
  length (receivers w) = count is_portal_call (trace w)
  /\ (path, h) ∈ receivers (run more w)
  /\ (forall response results,
        step (Response path response results) (run more w)
        = exec (run_handler invoke h response results) (run more w)).
Proof.
  intros w Hin.
  pose proof (Inv_run inputs _ (Inv_main crf maxrate location unique_name fds)) as HI.
  fold w in HI.
  assert (Hin' : (path, h) ∈ receivers (run more w)) by apply receivers_run, Hin.
  split; [|split; [exact Hin'|]].
  - rewrite <- request_tokens_length, (inv_tokens _ HI).
    rewrite <- (length_fmap fst (receivers w)), (inv_receivers _ HI).
    rewrite !length_fmap. reflexivity.
  - intros response results. cbn [step]. apply deliver_registered; [|exact Hin'].
    rewrite (inv_receivers _ (Inv_run more _ HI)).
    apply NoDup_fmap_2; [apply request_path_of_inj|apply NoDup_seqZ].
Qed.

Lemma receiver_fires_on_every_reply_witness :
  let w := main "18" "10000" "/home/u/out.mkv" ":1.42" (λ _, 7) in
  let path := "/org/freedesktop/portal/desktop/request/1_42/u1" in
  let reply := Response path 0 {[ "session_handle" := VStr "/s/1" ]} in
  step reply (run [reply] w)
  = exec (run_handler invoke H_select_sources 0 {[ "session_handle" := VStr "/s/1" ]})
      (run [reply] w).
Proof.
  cbn zeta.
  refine (proj2 (proj2 (receiver_fires_on_every_reply
            "18" "10000" "/home/u/out.mkv" ":1.42" (λ _, 7) []
            [Response "/org/freedesktop/portal/desktop/request/1_42/u1" 0
               {[ "session_handle" := VStr "/s/1" ]}]
            "/org/freedesktop/portal/desktop/request/1_42/u1" H_select_sources _))
          0 {[ "session_handle" := VStr "/s/1" ]}).
  apply list_elem_of_lookup_2 with 0%nat. vm_compute. reflexivity.
Defined.

(** * Callbacks that return *)

Lemma result_terminate w : result terminate w = Return tt.
Proof. unfold result. rewrite terminate_run. reflexivity. Qed.

Lemma result_softexit w : result softexit w = Return tt.
Proof.
  unfold result. destruct (_pipeline (pwr w)) as [p|] eqn:Hp.
  - rewrite (softexit_pipeline _ _ Hp).
    destruct (delayed_terminate_spec default_delay
                (log (PipelineSendEOS (pipeline_id p))
                   (log (Print "Caught SIGINT, trying to exit gracefully.") w)))
      as (w' & -> & _). reflexivity.
  - rewrite (softexit_no_pipeline _ Hp). reflexivity.
Qed.

(** What the bus callback does on an error of the resource class, by the
    pipeline the recorder holds after the timer was armed. *)
Lemma _gst_message_callback_resource src_name err w :
  matches err ResourceError (ResourceError_member (code err)) = true ->
  exists w',
    delayed_terminate default_delay
      (log (Print "Stream ended, trying to quit gracefully.") w) = (w', Return tt)
    /\ _pipeline (pwr w') = _pipeline (pwr w)
    /\ _gst_message_callback (MsgError src_name err) w =
         match _pipeline (pwr w) with
         | None => (w', Raise AttributeError)
         | Some p =>
             match get_by_name p "sink" with
             | None => (w', Raise AttributeError)
             | Some sink => (log (ElementSendEOS (pipeline_id p) sink) w', Return tt)
             end
         end.
Proof.
  intros Hm.
  destruct (delayed_terminate_spec default_delay
              (log (Print "Stream ended, trying to quit gracefully.") w))
    as (w' & Hrun & _ & _ & Hp).
  exists w'. split; [exact Hrun|]. split; [exact Hp|].
  unfold _gst_message_callback. rewrite Hm. mstep.
  rewrite (bind_run _ _ _ _ _ Hrun). mstep. rewrite Hp. cbn [log pwr].
  destruct (_pipeline (pwr w)) as [p|]; [|reflexivity].
  destruct (get_by_name p "sink"); reflexivity.
Qed.

(** In every world the main loop reaches, the callbacks the loop runs
    return: the bus callback on any message once a pipeline is held (the
    element named [sink] is found), the interrupt handler, the function of
    the timer, and a reply handler on a response code other than zero (the
    continuation is set). Held no pipeline, the bus callback on an error
    of the resource class would arm the timer and then fail on [None]. *)
Theorem loop_callbacks_return
    (crf maxrate location unique_name : string) (fds : nat -> Z)
    (inputs : list Input) :
  let w := run inputs (main crf maxrate location unique_name fds) in
  (forall msg, is_Some (_pipeline (pwr w)) ->
     result (_gst_message_callback msg) w = Return tt)
  /\ result softexit w = Return tt
  /\ result terminate w = Return tt
  /\ (forall h response results,
        response ≠ 0 -> result (run_handler invoke h response results) w = Return tt)
  /\ (forall src_name err w0,
        matches err ResourceError (ResourceError_member (code err)) = true ->
        _pipeline (pwr w0) = None ->
        result (_gst_message_callback (MsgError src_name err)) w0 = Raise AttributeError
        /\ is_Some (_delayed_terminate
                      (pwr (exec (_gst_message_callback (MsgError src_name err)) w0)))).
Proof.
  intros w.
  pose proof (Inv_run inputs _ (Inv_main crf maxrate location unique_name fds)) as HI.
  fold w in HI.
  split; [|split; [apply result_softexit|split; [apply result_terminate|split]]].
  - intros msg [p Hp]. destruct msg as [|src_name err|].
    + apply result_terminate.
    + destruct (matches err ResourceError (ResourceError_member (code err))) eqn:Hm.
      * destruct (_gst_message_callback_resource src_name err w Hm)
          as (w' & _ & _ & Hcb).
        unfold result. rewrite Hcb, Hp.
        destruct (inv_pipeline _ HI p Hp) as (fd & node_id & Hels).
        rewrite (get_by_name_sink _ _ _ _ _ _ Hels). reflexivity.
      * unfold result, _gst_message_callback. rewrite Hm. reflexivity.
    + reflexivity.
  - intros h response results Hr. unfold result.
    rewrite (run_handler_failure invoke h response results w _ Hr (inv_callback _ HI)).
    cbn [invoke get_streams_callback]. rewrite terminate_run. reflexivity.
  - intros src_name err w0 Hm Hp.
    destruct (_gst_message_callback_resource src_name err w0 Hm)
      as (w' & Hrun & _ & Hcb).
    unfold result, exec. rewrite Hcb, Hp. cbn [fst snd]. split; [reflexivity|].
    destruct (delayed_terminate_spec default_delay
                (log (Print "Stream ended, trying to quit gracefully.") w0))
      as (w'' & Hrun' & _ & Hd & _).
    rewrite Hrun in Hrun'. injection Hrun' as <-. rewrite Hd. eauto.
Qed.

(** * The drain, to its end *)

(** A pipeline plays, no timer is armed, and the source vanishes. When the
    end-of-stream message arrives before the timer expires, the pipeline
    is set to NULL once, the run loop is quit once, the timer is cancelled,
    and the expiry that follows does nothing. When the timer expires
    first, the end-of-stream message that follows runs [terminate] a second
    time: the pipeline is set to NULL twice and the run loop is quit
    twice. *)
Theorem drain_to_the_end
    (w : World) (p : Pipeline) (fd node_id : Z) (c v l : string)
    (src_name : string) (err : GError) :
  _pipeline (pwr w) = Some p ->
  elements p = launch fd node_id c v l ->
  _delayed_terminate (pwr w) = None ->
  matches err ResourceError (ResourceError_member (code err)) = true ->
  let vanished := BusMessage (MsgError src_name err) in
  let n := objects w in
  let id := pipeline_id p in
  trace (run [vanished; BusMessage MsgEOS; TimerExpired] w)
    = trace w ++ [Print "Stream ended, trying to quit gracefully.";
                  TimerCreate n default_delay; TimerStart n;
                  ElementSendEOS id muxer;
                  SetState id GST_NULL; LoopQuit; TimerCancel n]
  /\ trace (run [vanished; TimerExpired; BusMessage MsgEOS] w)
    = trace w ++ [Print "Stream ended, trying to quit gracefully.";
                  TimerCreate n default_delay; TimerStart n;
                  ElementSendEOS id muxer;
                  SetState id GST_NULL; LoopQuit; TimerCancel n;
                  SetState id GST_NULL; LoopQuit; TimerCancel n].
Proof.
  intros Hp Hels Ht Hm vanished n id.
  set (w0 := log (Print "Stream ended, trying to quit gracefully.") w).
  destruct (_gst_message_callback_resource src_name err w Hm) as (w' & Hrun & _ & Hcb).
  fold w0 in Hrun. rewrite (delayed_terminate_new default_delay w0 Ht) in Hrun.
  injection Hrun as <-.
  rewrite Hp, (get_by_name_sink _ _ _ _ _ _ Hels) in Hcb.
  set (w1 := step vanished w).
  assert (E1 : w1 =
    {| pwr := set_delayed_terminate (Some (mkTimer n default_delay true false)) (pwr w);
       default_options := default_options w;
       receivers := receivers w;
       remote_fd := remote_fd w;
       objects := S n;
       trace := trace w ++ [Print "Stream ended, trying to quit gracefully.";
                            TimerCreate n default_delay; TimerStart n;
                            ElementSendEOS id muxer] |}).
  { subst w1 vanished. cbn [step]. rewrite Hp. unfold exec. rewrite Hcb.
    unfold log. cbn [fst trace pwr default_options receivers remote_fd objects].
    rewrite <- !app_assoc. reflexivity. }
  assert (Hp1 : _pipeline (pwr w1) = Some p) by (rewrite E1; exact Hp).
  assert (Ht1 : _delayed_terminate (pwr w1) = Some (mkTimer n default_delay true false))
    by (rewrite E1; reflexivity).
  assert (Hc1 : terminate_calls w1 = [SetState id GST_NULL; LoopQuit; TimerCancel n]).
  { unfold terminate_calls. rewrite Hp1, Ht1. reflexivity. }
  assert (Hc2 : terminate_calls (exec terminate w1)
                = [SetState id GST_NULL; LoopQuit; TimerCancel n]).
  { rewrite terminate_calls_terminated. exact Hc1. }
  assert (T1 : trace (exec terminate w1)
               = trace w ++ [Print "Stream ended, trying to quit gracefully.";
                             TimerCreate n default_delay; TimerStart n;
                             ElementSendEOS id muxer;
                             SetState id GST_NULL; LoopQuit; TimerCancel n]).
  { rewrite exec_terminate. cbn [trace]. rewrite Hc1, E1. cbn [trace].
    rewrite <- app_assoc. reflexivity. }
  assert (R1 : run [vanished; BusMessage MsgEOS; TimerExpired] w
               = step TimerExpired (step (BusMessage MsgEOS) w1)) by reflexivity.
  assert (R2 : run [vanished; TimerExpired; BusMessage MsgEOS] w
               = step (BusMessage MsgEOS) (step TimerExpired w1)) by reflexivity.
  rewrite R1, R2. clearbody w1. clear R1 R2. split.
  - assert (E2 : step (BusMessage MsgEOS) w1 = exec terminate w1).
    { cbn [step]. rewrite Hp1. reflexivity. }
    rewrite E2.
    assert (E3 : step TimerExpired (exec terminate w1) = exec terminate w1).
    { rewrite exec_terminate. cbn [step pwr terminated _delayed_terminate].
      rewrite Ht1. reflexivity. }
    rewrite E3. exact T1.
  - assert (E2 : step TimerExpired w1 = exec terminate w1).
    { cbn [step]. rewrite Ht1. reflexivity. }
    rewrite E2.
    assert (E3 : step (BusMessage MsgEOS) (exec terminate w1)
                 = exec terminate (exec terminate w1)).
    { cbn [step]. rewrite exec_terminate at 1. cbn [pwr terminated _pipeline].
      rewrite Hp1. reflexivity. }
    rewrite E3, (exec_terminate (exec terminate w1)). cbn [trace].
    rewrite Hc2, T1, <- app_assoc. reflexivity.
Qed.

Lemma drain_to_the_end_witness :
  count is_release
    (trace (run [BusMessage (MsgError "pipewiresrc0"
                               (mkGError ResourceError 5 "stream error"));
                 BusMessage MsgEOS; TimerExpired] sample_world))
  = 1%nat.
Proof.
  rewrite (proj1 (drain_to_the_end sample_world
             (mkPipeline 0 (launch 7 42 "18" "10000" "/home/u/out.mkv") GST_PLAYING)
             7 42 "18" "10000" "/home/u/out.mkv" "pipewiresrc0"
             (mkGError ResourceError 5 "stream error")
             ltac:(vm_compute; reflexivity) eq_refl
             ltac:(vm_compute; reflexivity) eq_refl)).
  vm_compute. reflexivity.
Defined.

(** * The pipeline the recorder holds *)

Lemma holds_last_frame (w w' : World) (evs : list Event) :
  holds_last w ->
  trace w' = trace w ++ evs ->
  launches evs = [] ->
  (λ p, (pipeline_id p, elements p)) <$> _pipeline (pwr w')
  = (λ p, (pipeline_id p, elements p)) <$> _pipeline (pwr w) ->
  holds_last w'.
Proof.
  unfold holds_last. intros H Ht Hl Hp.
  rewrite Ht, launches_app, Hl, app_nil_r, Hp. exact H.
Qed.

Lemma holds_last_emit e : launches [e] = [] -> preserves holds_last (emit e).
Proof. intros He w H. apply (holds_last_frame w _ [e]); done. Qed.

Lemma holds_last_terminate : preserves holds_last terminate.
Proof.
  intros w H. rewrite exec_terminate.
  apply (holds_last_frame w _ (terminate_calls w)); try done.
  - unfold terminate_calls.
    destruct (_pipeline (pwr w)), (_delayed_terminate (pwr w)); reflexivity.
  - cbn [pwr terminated _pipeline]. destruct (_pipeline (pwr w)); reflexivity.
Qed.

Lemma holds_last_delayed_terminate delay : preserves holds_last (delayed_terminate delay).
Proof.
  intros w H. unfold exec.
  destruct (_delayed_terminate (pwr w)) as [t|] eqn:Ht.
  - rewrite (delayed_terminate_armed _ _ _ Ht). exact H.
  - rewrite (delayed_terminate_new _ _ Ht). cbn [fst].
    apply (holds_last_frame w _ [TimerCreate (objects w) delay; TimerStart (objects w)]);
      done.
Qed.

Lemma holds_last__record node_id : preserves holds_last (_record node_id).
Proof.
  intros w _. unfold exec, holds_last. rewrite _record_run.
  cbn [fst trace pwr set_pipeline _pipeline]. rewrite launches_app.
  unfold record_calls. cbn [launches omap list_omap]. rewrite last_snoc. reflexivity.
Qed.

Lemma holds_last__dbus_screencast method callback args options :
  preserves holds_last (_dbus_screencast method callback args options).
Proof.
  intros w H. unfold exec. rewrite _dbus_screencast_run. cbn [fst].
  eapply (holds_last_frame w); [exact H|reflexivity|reflexivity|reflexivity].
Qed.

Lemma holds_last_set_session v :
  preserves holds_last (modify (with_pwr (with_dpm (set_session v)))).
Proof.
  intros w H. apply (holds_last_frame w _ []); try done.
  cbn [exec modify fst trace with_pwr]. rewrite app_nil_r. reflexivity.
Qed.

(** Decomposes a computation into the calls that keep [holds_last]. *)
Ltac held :=
  repeat match goal with
    | |- preserves _ terminate => apply holds_last_terminate
    | |- preserves _ (delayed_terminate _) => apply holds_last_delayed_terminate
    | |- preserves _ (_record _) => apply holds_last__record
    | |- preserves _ (_dbus_screencast _ _ _ _) => apply holds_last__dbus_screencast
    | |- preserves _ (modify (with_pwr (with_dpm (set_session _)))) =>
        apply holds_last_set_session
    | |- preserves _ (mret _) => apply preserves_ret
    | |- preserves _ (raise _) => apply preserves_raise
    | |- preserves _ get => apply preserves_get
    | |- preserves _ (emit _) => apply holds_last_emit; reflexivity
    | |- preserves _ (print _) => apply holds_last_emit; reflexivity
    | |- preserves _ (_ ≫= _) => apply preserves_bind; [|intros ?]
    | |- preserves _ (for_each _ _) => apply preserves_for_each; intros ?
    | |- preserves _ (invoke ?cb _) => destruct cb; unfold invoke, get_streams_callback
    | |- preserves _ (match ?x with _ => _ end) => destruct x
    end.

Lemma holds_last_run_handler h response results :
  preserves holds_last (run_handler invoke h response results).
Proof.
  destruct h; cbn [run_handler];
    unfold _process_streams, _start_portal, _select_sources, subscript, call_callback;
    held.
Qed.

Lemma holds_last_step i w : holds_last w -> holds_last (step i w).
Proof.
  intros H. destruct i as [path response results|msg| |]; cbn [step].
  - unfold deliver. apply foldl_invariant; [|exact H].
    intros w' r H'. unfold call_receiver.
    destruct (bool_decide (r.1 = path)); [|exact H'].
    apply holds_last_run_handler, H'.
  - destruct (_pipeline (pwr w)) eqn:Hp; [|exact H].
    revert H. clear Hp. revert w. change (preserves holds_last (_gst_message_callback msg)).
    unfold _gst_message_callback. held.
  - revert w H. change (preserves holds_last softexit). unfold softexit. held.
  - destruct (_delayed_terminate (pwr w)) as [t|]; [|exact H].
    destruct (started t && negb (finished t)); [|exact H].
    apply holds_last_terminate, H.
Qed.

(** In every world the main loop reaches, the recorder holds the pipeline
    launched last, and none as long as none was launched. Until then the
    interrupt quits the run loop and does nothing else, and no message
    of a pipeline's bus is handled. *)
Theorem recorder_holds_last_pipeline
    (crf maxrate location unique_name : string) (fds : nat -> Z)
    (inputs : list Input) :
  let w := run inputs (main crf maxrate location unique_name fds) in
  holds_last w
  /\ (launches (trace w) = [] ->
      _pipeline (pwr w) = None
      /\ step SIGINT w = log LoopQuit w
      /\ (forall msg, step (BusMessage msg) w = w)).
Proof.
  intros w.
  assert (H : holds_last w).
  { subst w. unfold run. apply foldl_invariant.
    - intros w' i. apply holds_last_step.
    - rewrite main_world. reflexivity. }
  split; [exact H|]. intros Hl. unfold holds_last in H. rewrite Hl in H.
  assert (Hp : _pipeline (pwr w) = None).
  { destruct (_pipeline (pwr w)); [discriminate H|reflexivity]. }
  split; [exact Hp|]. split.
  - cbn [step]. unfold exec. rewrite (softexit_no_pipeline _ Hp). reflexivity.
  - intros msg. cbn [step]. rewrite Hp. reflexivity.
Qed.
